(** * Read routing over a PostgreSQL primary and its replicas

    A shallow embedding of the three routing patterns of the repository
    ([app/pattern1_primary_routing.py], [app/pattern2_lsn_tracking.py],
    [app/pattern3_sticky_session.py]) and the properties their
    specification states about them.

    Python objects are records threaded through a state-and-exception
    monad; every call the code makes on a psycopg2 connection is logged
    as an [action], and the database's answer to it is given by an
    oracle [db], so that theorems hold for every behaviour of the
    servers unless a model of PostgreSQL is named explicitly. *)

From stdpp Require Import base list gmap strings pretty.
From Stdlib Require Import ZArith Lia.

Local Open Scope Z_scope.

(** ** Python values *)

Module Py.

(** A Python [str] is a sequence of code points (0 .. 0x10FFFF). *)
Definition str := list Z.

(** ASCII literals of the source. *)
Definition lit (s : string) : str :=
  (λ a, Z.of_nat (Ascii.nat_of_ascii a)) <$> String.list_ascii_of_string s.

Definition valid_code_point (c : Z) : bool := (0 <=? c) && (c <=? 0x10FFFF).
Definition is_surrogate (c : Z) : bool := (0xD800 <=? c) && (c <=? 0xDFFF).

(** The values that cross the database interface: [None] (SQL NULL),
    [bool], [int] and [str]. *)
Inductive val :=
| VNone
| VBool (b : bool)
| VInt (n : Z)
| VStr (s : str).

(** Truth value testing: [None], [False], [0] and [''] are false. *)
Definition truthy (v : val) : bool :=
  match v with
  | VNone => false
  | VBool b => b
  | VInt n => negb (n =? 0)
  | VStr s => match s with [] => false | _ => true end
  end.

Inductive exn :=
| ZeroDivisionError
| UnicodeEncodeError
| ValueError
| TypeError
| IndexError
| KeyError
| DatabaseError (reason : string).

Inductive result (A : Type) :=
| Return (a : A)
| Raise (e : exn).
Arguments Return {A} a.
Arguments Raise {A} e.

(** [str.encode()], UTF-8 with the default [strict] error handler: a
    surrogate code point cannot be encoded. *)
Definition encode_code_point (c : Z) : result (list Z) :=
  if negb (valid_code_point c) || is_surrogate c then Raise UnicodeEncodeError
  else if c <? 0x80 then Return [c]
  else if c <? 0x800 then
    Return [Z.lor 0xC0 (Z.shiftr c 6); Z.lor 0x80 (Z.land c 0x3F)]
  else if c <? 0x10000 then
    Return [Z.lor 0xE0 (Z.shiftr c 12);
            Z.lor 0x80 (Z.land (Z.shiftr c 6) 0x3F);
            Z.lor 0x80 (Z.land c 0x3F)]
  else
    Return [Z.lor 0xF0 (Z.shiftr c 18);
            Z.lor 0x80 (Z.land (Z.shiftr c 12) 0x3F);
            Z.lor 0x80 (Z.land (Z.shiftr c 6) 0x3F);
            Z.lor 0x80 (Z.land c 0x3F)].

Fixpoint encode (s : str) : result (list Z) :=
  match s with
  | [] => Return []
  | c :: s' =>
      match encode_code_point c with
      | Raise e => Raise e
      | Return bs =>
          match encode s' with
          | Raise e => Raise e
          | Return rest => Return (bs ++ rest)
          end
      end
  end.

(** [format(n)] of an [int] inside an f-string: its decimal digits. *)
Definition str_of_int (n : Z) : str := lit (pretty n).

(** One hexadecimal digit, lower case, as [hexdigest] prints it. *)
Definition hex_digit (d : Z) : Z :=
  if d <? 10 then 48 + d else 87 + d.

(** The value of a hexadecimal digit as [int(_, 16)] reads it (either
    case), or [None]. *)
Definition hex_value (c : Z) : option Z :=
  if (48 <=? c) && (c <=? 57) then Some (c - 48)
  else if (97 <=? c) && (c <=? 102) then Some (c - 87)
  else if (65 <=? c) && (c <=? 70) then Some (c - 55)
  else None.

Fixpoint int16_digits (acc : Z) (s : str) : result Z :=
  match s with
  | [] => Return acc
  | c :: s' =>
      match hex_value c with
      | None => Raise ValueError
      | Some d => int16_digits (16 * acc + d) s'
      end
  end.

(** [int(s, 16)] on a string of hexadecimal digits; the empty string
    and any other character raise [ValueError]. *)
Definition int16 (s : str) : result Z :=
  match s with
  | [] => Raise ValueError
  | _ => int16_digits 0 s
  end.

End Py.

(** ** MD5 (RFC 1321), as [hashlib.md5] computes it *)

Module MD5.

Definition mask32 (x : Z) : Z := Z.land x 0xFFFFFFFF.
Definition add32 (x y : Z) : Z := mask32 (x + y).
Definition not32 (x : Z) : Z := Z.lxor x 0xFFFFFFFF.
Definition rotl32 (x n : Z) : Z :=
  mask32 (Z.lor (Z.shiftl x n) (Z.shiftr x (32 - n))).

Definition K : list Z :=
  [ 0xd76aa478; 0xe8c7b756; 0x242070db; 0xc1bdceee;
    0xf57c0faf; 0x4787c62a; 0xa8304613; 0xfd469501;
    0x698098d8; 0x8b44f7af; 0xffff5bb1; 0x895cd7be;
    0x6b901122; 0xfd987193; 0xa679438e; 0x49b40821;
    0xf61e2562; 0xc040b340; 0x265e5a51; 0xe9b6c7aa;
    0xd62f105d; 0x02441453; 0xd8a1e681; 0xe7d3fbc8;
    0x21e1cde6; 0xc33707d6; 0xf4d50d87; 0x455a14ed;
    0xa9e3e905; 0xfcefa3f8; 0x676f02d9; 0x8d2a4c8a;
    0xfffa3942; 0x8771f681; 0x6d9d6122; 0xfde5380c;
    0xa4beea44; 0x4bdecfa9; 0xf6bb4b60; 0xbebfbc70;
    0x289b7ec6; 0xeaa127fa; 0xd4ef3085; 0x04881d05;
    0xd9d4d039; 0xe6db99e5; 0x1fa27cf8; 0xc4ac5665;
    0xf4292244; 0x432aff97; 0xab9423a7; 0xfc93a039;
    0x655b59c3; 0x8f0ccc92; 0xffeff47d; 0x85845dd1;
    0x6fa87e4f; 0xfe2ce6e0; 0xa3014314; 0x4e0811a1;
    0xf7537e82; 0xbd3af235; 0x2ad7d2bb; 0xeb86d391 ].

Definition S : list Z :=
  [ 7; 12; 17; 22; 7; 12; 17; 22; 7; 12; 17; 22; 7; 12; 17; 22;
    5;  9; 14; 20; 5;  9; 14; 20; 5;  9; 14; 20; 5;  9; 14; 20;
    4; 11; 16; 23; 4; 11; 16; 23; 4; 11; 16; 23; 4; 11; 16; 23;
    6; 10; 15; 21; 6; 10; 15; 21; 6; 10; 15; 21; 6; 10; 15; 21 ].

(** The chaining value A, B, C, D. *)
Record state := { sA : Z; sB : Z; sC : Z; sD : Z }.

Definition init : state :=
  {| sA := 0x67452301; sB := 0xefcdab89; sC := 0x98badcfe; sD := 0x10325476 |}.

(** Little-endian bytes of a word, and back. *)
Definition le_bytes (n : nat) (x : Z) : list Z :=
  (λ i, Z.land (Z.shiftr x (8 * Z.of_nat i)) 0xFF) <$> seq 0 n.

Fixpoint le_word (bs : list Z) : Z :=
  match bs with
  | [] => 0
  | b :: bs' => Z.lor b (Z.shiftl (le_word bs') 8)
  end.

(** Padding: a 1 bit, zeros up to 56 modulo 64, then the length in bits
    on 64 bits. *)
Definition pad (msg : list Z) : list Z :=
  let len := Z.of_nat (length msg) in
  let zeros := Z.to_nat ((55 - len) mod 64) in
  msg ++ [0x80] ++ replicate zeros 0 ++ le_bytes 8 ((8 * len) mod 2 ^ 64).

Definition round_fun (i : nat) (b c d : Z) : Z * nat :=
  if (i <? 16)%nat then
    (Z.lor (Z.land b c) (Z.land (not32 b) d), i)
  else if (i <? 32)%nat then
    (Z.lor (Z.land d b) (Z.land (not32 d) c), (5 * i + 1) mod 16)%nat
  else if (i <? 48)%nat then
    (Z.lxor (Z.lxor b c) d, (3 * i + 5) mod 16)%nat
  else
    (Z.lxor c (Z.lor b (not32 d)), (7 * i) mod 16)%nat.

Definition step (m : list Z) (st : state) (i : nat) : state :=
  let '(f, g) := round_fun i (sB st) (sC st) (sD st) in
  let f' := add32 (add32 (add32 f (sA st)) (K !!! i)) (m !!! g) in
  {| sA := sD st;
     sB := add32 (sB st) (rotl32 f' (S !!! i));
     sC := sB st;
     sD := sC st |}.

Fixpoint words (n : nat) (bs : list Z) : list Z :=
  match n with
  | O => []
  | Datatypes.S n' => le_word (take 4 bs) :: words n' (drop 4 bs)
  end.

Definition compress (st : state) (block : list Z) : state :=
  let m := words 16 block in
  let st' := foldl (step m) st (seq 0 64) in
  {| sA := add32 (sA st) (sA st');
     sB := add32 (sB st) (sB st');
     sC := add32 (sC st) (sC st');
     sD := add32 (sD st) (sD st') |}.

Fixpoint blocks (n : nat) (st : state) (bs : list Z) : state :=
  match n with
  | O => st
  | Datatypes.S n' => blocks n' (compress st (take 64 bs)) (drop 64 bs)
  end.

(** The 16 bytes of the digest. *)
Definition digest (msg : list Z) : list Z :=
  let p := pad msg in
  let st := blocks (length p / 64) init p in
  le_bytes 4 (sA st) ++ le_bytes 4 (sB st) ++ le_bytes 4 (sC st) ++ le_bytes 4 (sD st).

(** [hexdigest()]: two lower-case hexadecimal digits per byte. *)
Definition hexdigest (msg : list Z) : Py.str :=
  digest msg ≫= (λ b, [Py.hex_digit (Z.shiftr b 4); Py.hex_digit (Z.land b 0xF)]).

End MD5.

(** ** The database interface (psycopg2 and the PostgreSQL servers) *)

Module Pg.

Import Py.

(** A connection, as [psycopg2.connect(host=..., port=...,
    database="testdb", user="postgres", password="postgres")] opens
    it: it is known by the endpoint it is connected to. *)
Record conn := { conn_host : str; conn_port : Z }.

(** What the code asks of the driver: opening a connection, executing a
    statement with its bound parameters on a cursor of a connection,
    committing and closing. *)
Inductive action :=
| Connect (c : conn)
| Execute (c : conn) (query : string) (params : list val)
| Commit (c : conn)
| Close (c : conn).

Definition action_conn (a : action) : conn :=
  match a with
  | Connect c | Execute c _ _ | Commit c | Close c => c
  end.

Definition row := list val.

(** The environment: the answer of the driver to an action, given all
    the actions performed before it.  An [Execute] answers with the
    rows of the result set, the other actions with no rows; any of
    them may raise. *)
Definition db := list action → action → result (list row).

(** *** Text comparison

    A Python [str] parameter reaches the server as an untyped string
    literal.  An operator whose two operands are untyped literals is
    resolved on [text], so that [SELECT %s <= %s] on two [str] compares
    them as text.  The order below is that of the code points (the "C"
    collation); the digits compare alike in every collation. *)
Fixpoint text_cmp (a b : str) : comparison :=
  match a, b with
  | [], [] => Eq
  | [], _ :: _ => Lt
  | _ :: _, [] => Gt
  | x :: a', y :: b' =>
      match x ?= y with
      | Eq => text_cmp a' b'
      | c => c
      end
  end.

Definition text_le (a b : str) : bool :=
  match text_cmp a b with Gt => false | _ => true end.

(** The result set of [SELECT %s <= %s] for the parameters the code can
    bind: a recorded position is a [str]; the replica's position is a
    [str], or NULL, and a comparison with NULL is NULL. *)
Definition select_le (a b : val) : result (list row) :=
  match a, b with
  | VStr x, VStr y => Return [[VBool (text_le x y)]]
  | VNone, _ | _, VNone => Return [[VNone]]
  | VInt x, VInt y => Return [[VBool (x <=? y)]]
  | VBool x, VBool y => Return [[VBool (implb x y)]]
  | _, _ => Raise (DatabaseError "invalid input syntax")
  end.

(** *** Log positions

    The type [pg_lsn]: a position is printed as two hexadecimal numbers
    of at most 8 digits separated by a slash, and stands for the 64-bit
    number [hi * 2^32 + lo]; the order of [pg_lsn] is the order of
    these numbers. *)
Definition hex_word (s : str) : option Z :=
  if bool_decide (1 ≤ length s ≤ 8)%nat then
    foldl (λ acc c, a ← acc; d ← hex_value c; Some (16 * a + d)) (Some 0) s
  else None.

Fixpoint split_slash (s : str) : option (str * str) :=
  match s with
  | [] => None
  | c :: s' =>
      if c =? 47 then Some ([], s')
      else '(hi, lo) ← split_slash s'; Some (c :: hi, lo)
  end.

Definition pg_lsn_in (s : str) : option Z :=
  '(hi, lo) ← split_slash s;
  h ← hex_word hi;
  l ← hex_word lo;
  Some (Z.lor (Z.shiftl h 32) l).

Definition hex_digit_upper (d : Z) : Z :=
  if d <? 10 then 48 + d else 55 + d.

Fixpoint hex_upper (fuel : nat) (n : Z) (acc : str) : str :=
  match fuel with
  | O => acc
  | S fuel' =>
      let acc' := hex_digit_upper (n mod 16) :: acc in
      if n / 16 =? 0 then acc' else hex_upper fuel' (n / 16) acc'
  end.

(** How the server prints a position: [%X/%X], each half of the 64
    bits on at most 8 digits. *)
Definition pg_lsn_out (n : Z) : str :=
  hex_upper 8 (Z.shiftr n 32) [] ++ [47] ++ hex_upper 8 (Z.land n 0xFFFFFFFF) [].

(** [a <= b] in the order of [pg_lsn], for two printed positions. *)
Definition lsn_le (a b : str) : option bool :=
  x ← pg_lsn_in a; y ← pg_lsn_in b; Some (x <=? y).

(** *** LIKE

    [%] matches any sequence of characters, [_] any single character,
    a backslash makes the character after it match itself only, and
    every other character matches itself.  (A pattern that ends in a
    lone backslash is an error for the server; here it matches
    nothing.) *)
Fixpoint like (p t : str) {struct p} : bool :=
  match p with
  | [] => match t with [] => true | _ :: _ => false end
  | c :: p' =>
      if c =? 37 then
        (fix any (t : str) : bool :=
           like p' t || match t with [] => false | _ :: t' => any t' end) t
      else if c =? 95 then
        match t with [] => false | _ :: t' => like p' t' end
      else if c =? 92 then
        match p' with
        | [] => false
        | e :: p'' =>
            match t with [] => false | x :: t' => (x =? e) && like p'' t' end
        end
      else
        match t with [] => false | x :: t' => (x =? c) && like p' t' end
  end.

End Pg.

(** ** The monad of the methods: object state, trace and exceptions *)

Module Run.

Import Py Pg.

Section Monad.
Context (db : Pg.db) {Σ : Type}.

(** A method runs from the state [Σ] of its object and the trace so
    far, and gives its result (or the exception it raises), the
    state it leaves and the extended trace.  A mutation made before
    an exception is raised stays. *)
Definition M (A : Type) : Type := Σ → list action → result A * Σ * list action.

Definition ret {A} (a : A) : M A := λ σ h, (Return a, σ, h).
Definition raise {A} (e : exn) : M A := λ σ h, (Raise e, σ, h).

Definition bind {A B} (m : M A) (k : A → M B) : M B :=
  λ σ h,
    match m σ h with
    | (Return a, σ', h') => k a σ' h'
    | (Raise e, σ', h') => (Raise e, σ', h')
    end.

Definition lift {A} (r : result A) : M A := λ σ h, (r, σ, h).
Definition get : M Σ := λ σ h, (Return σ, σ, h).
Definition put (σ' : Σ) : M unit := λ _ h, (Return tt, σ', h).

(** One call on the driver, logged, answered by the environment. *)
Definition perform (a : action) : M (list row) :=
  λ σ h, (db h a, σ, h ++ [a]).

(** [cur.execute(query, params)] on a cursor of [c]; opening the
    cursor and closing it when the [with] block ends are part of it. *)
Definition execute (c : conn) (query : string) (params : list val) : M (list row) :=
  perform (Execute c query params).

Definition commit (c : conn) : M unit :=
  bind (perform (Commit c)) (λ _, ret tt).

Definition close (c : conn) : M unit :=
  bind (perform (Close c)) (λ _, ret tt).

(** [cur.fetchone()[0]]: [fetchone()] is [None] on an empty result
    set, and [None[0]] is a [TypeError]. *)
Definition fetchone_0 (rows : list row) : M val :=
  match rows with
  | [] => raise TypeError
  | [] :: _ => raise IndexError
  | (v :: _) :: _ => ret v
  end.
End Monad.

(** Running a method of an attribute inside its owner. *)
Definition zoom {Σ T A} (proj : Σ → T) (upd : T → Σ → Σ)
    (m : T → list action → result A * T * list action) :
    Σ → list action → result A * Σ * list action :=
  λ σ h, match m (proj σ) h with (r, t', h') => (r, upd t' σ, h') end.

End Run.

Notation "'let*' x ':=' m 'in' k" := (Run.bind m (λ x, k))
  (at level 10, x name, m at level 100, k at level 200,
   format "'[v' 'let*'  x  ':='  m  'in' '/' k ']'").
Notation "'do' m1 'then' m2" := (Run.bind m1 (λ _, m2))
  (at level 10, m1 at level 100, m2 at level 200,
   format "'[v' 'do'  m1  'then' '/' m2 ']'").

(** ** Pattern 1: primary routing for a while after a write *)

Module Pattern1.

Import Py Pg Run.

(** [total_seconds()] gives a [float]: CPython divides the microseconds
    of the [timedelta] by [10**6] and rounds the quotient correctly to
    a binary64, which is kept here as [mant * 2^expo]. *)
Record float := { mant : Z; expo : Z }.

(** [a < b * 2^k], for [b > 0] and [k] of either sign. *)
Definition below_scaled (a b k : Z) : bool :=
  if 0 <=? k then a <? b * 2 ^ k else a * 2 ^ (- k) <? b.

(** The integer nearest to [num / den], ties to the even one. *)
Definition round_half_even (num den : Z) : Z :=
  let q := num / den in
  let r := num mod den in
  if 2 * r <? den then q
  else if den <? 2 * r then q + 1
  else if Z.even q then q else q + 1.

(** [int / int] for a positive divisor: the binary64 nearest to the
    quotient, ties to even, 53 bits of mantissa.  (The quotients that
    arise from datetimes are 0 or between 1e-6 and 1e12 in absolute
    value, so neither subnormals nor overflow are modelled.) *)
Definition true_divide (a b : Z) : float :=
  if a =? 0 then {| mant := 0; expo := 0 |}
  else
    let n := Z.abs a in
    let k0 := Z.log2 n - Z.log2 b in
    let k := if below_scaled n b k0 then k0 - 1 else k0 in
    let e := k - 52 in
    let num := if 0 <=? e then n else n * 2 ^ (- e) in
    let den := if 0 <=? e then b * 2 ^ e else b in
    {| mant := Z.sgn a * round_half_even num den; expo := e |}.

(** [x < n] for a [float] and an [int]; Python compares them exactly. *)
Definition float_lt_int (x : float) (n : Z) : bool :=
  if 0 <=? expo x then mant x * 2 ^ expo x <? n
  else mant x <? n * 2 ^ (- expo x).

(** A naive [datetime] is counted in microseconds; the difference of
    two is a [timedelta], also in microseconds. *)
Definition datetime := Z.

(** The datetimes Python has: from 0001-01-01 up to the end of 9999. *)
Definition valid_datetime (t : datetime) : Prop :=
  0 ≤ t < 315537897600000000.

Definition total_seconds (delta : Z) : float := true_divide delta 1000000.

Record SessionTracker := {
  last_write_time : option datetime;
  write_threshold_seconds : Z
}.

Definition SessionTracker_init : SessionTracker :=
  {| last_write_time := None; write_threshold_seconds := 5 |}.

(** [record_write]; [now] is what [datetime.now()] returns. *)
Definition record_write (now : datetime) (self : SessionTracker) : SessionTracker :=
  {| last_write_time := Some now;
     write_threshold_seconds := write_threshold_seconds self |}.

Definition should_read_from_primary (now : datetime) (self : SessionTracker) : bool :=
  match last_write_time self with
  | None => false
  | Some t =>
      let elapsed := total_seconds (now - t) in
      float_lt_int elapsed (write_threshold_seconds self)
  end.

Record DatabaseClient := {
  primary_conn : conn;
  replica_conn : conn;
  session : SessionTracker
}.

Definition set_session (s : SessionTracker) (self : DatabaseClient) : DatabaseClient :=
  {| primary_conn := primary_conn self;
     replica_conn := replica_conn self;
     session := s |}.

Definition primary_endpoint : conn := {| conn_host := lit "localhost"; conn_port := 5432 |}.
Definition replica_endpoint : conn := {| conn_host := lit "localhost"; conn_port := 5433 |}.

Definition insert_sql : string :=
  "INSERT INTO replication_test (data) VALUES (%s) RETURNING id".
Definition select_sql : string :=
  "SELECT id, data, created_at FROM replication_test ORDER BY id DESC LIMIT %s".

Section Methods.
Context (db : Pg.db).

(** [DatabaseClient()]: the two connections are opened, the primary
    first.  It starts from no object, so it is not in [M]. *)
Definition DatabaseClient_init (h : list action) :
    result DatabaseClient * list action :=
  let h1 := h ++ [Connect primary_endpoint] in
  match db h (Connect primary_endpoint) with
  | Raise e => (Raise e, h1)
  | Return _ =>
      let h2 := h1 ++ [Connect replica_endpoint] in
      match db h1 (Connect replica_endpoint) with
      | Raise e => (Raise e, h2)
      | Return _ =>
          (Return {| primary_conn := primary_endpoint;
                     replica_conn := replica_endpoint;
                     session := SessionTracker_init |}, h2)
      end
  end.

Definition write_data (now : datetime) (data : str) : M (Σ := DatabaseClient) val :=
  let* self := get in
  let* rows := execute db (primary_conn self) insert_sql [VStr data] in
  let* record_id := fetchone_0 rows in
  do commit db (primary_conn self) then
  do zoom session set_session (λ s h, (Return tt, record_write now s, h)) then
  ret record_id.

Definition read_data (now : datetime) (limit : Z) : M (Σ := DatabaseClient) (list row) :=
  let* self := get in
  let conn := if should_read_from_primary now (session self)
              then primary_conn self else replica_conn self in
  let* results := execute db conn select_sql [VInt limit] in
  ret results.

Definition close : M (Σ := DatabaseClient) unit :=
  let* self := get in
  do Run.close db (primary_conn self) then
  Run.close db (replica_conn self).
End Methods.

End Pattern1.

(** ** Pattern 2: routing on the log position *)

Module Pattern2.

Import Py Pg Run.

Record LSNTracker := { last_write_lsn : val }.

Definition LSNTracker_init : LSNTracker := {| last_write_lsn := VNone |}.

Record SmartDatabaseClient := {
  primary_conn : conn;
  replica_conn : conn;
  lsn_tracker : LSNTracker
}.

Definition set_lsn_tracker (t : LSNTracker) (self : SmartDatabaseClient) :
    SmartDatabaseClient :=
  {| primary_conn := primary_conn self;
     replica_conn := replica_conn self;
     lsn_tracker := t |}.

Definition primary_endpoint : conn := {| conn_host := lit "localhost"; conn_port := 5432 |}.
Definition replica_endpoint : conn := {| conn_host := lit "localhost"; conn_port := 5433 |}.

Definition current_lsn_sql : string := "SELECT pg_current_wal_lsn()".
Definition replay_lsn_sql : string := "SELECT pg_last_wal_replay_lsn()".
Definition compare_sql : string := "SELECT %s <= %s".
Definition insert_sql : string :=
  "INSERT INTO replication_test (data) VALUES (%s) RETURNING id".
Definition select_sql : string :=
  "SELECT id, data, created_at FROM replication_test ORDER BY id DESC LIMIT %s".

Section Methods.
Context (db : Pg.db).

Definition record_write_lsn (c : conn) : M (Σ := LSNTracker) unit :=
  let* rows := execute db c current_lsn_sql [] in
  let* lsn := fetchone_0 rows in
  put {| last_write_lsn := lsn |}.

Definition replica_is_caught_up (replica_conn : conn) : M (Σ := LSNTracker) val :=
  let* self := get in
  if negb (truthy (last_write_lsn self)) then ret (VBool true)
  else
    let* rows := execute db replica_conn replay_lsn_sql [] in
    let* replica_lsn := fetchone_0 rows in
    let* rows := execute db replica_conn compare_sql
                   [last_write_lsn self; replica_lsn] in
    let* is_caught_up := fetchone_0 rows in
    ret is_caught_up.

Definition SmartDatabaseClient_init (h : list action) :
    result SmartDatabaseClient * list action :=
  let h1 := h ++ [Connect primary_endpoint] in
  match db h (Connect primary_endpoint) with
  | Raise e => (Raise e, h1)
  | Return _ =>
      let h2 := h1 ++ [Connect replica_endpoint] in
      match db h1 (Connect replica_endpoint) with
      | Raise e => (Raise e, h2)
      | Return _ =>
          (Return {| primary_conn := primary_endpoint;
                     replica_conn := replica_endpoint;
                     lsn_tracker := LSNTracker_init |}, h2)
      end
  end.

Definition write_data (data : str) : M (Σ := SmartDatabaseClient) val :=
  let* self := get in
  let* rows := execute db (primary_conn self) insert_sql [VStr data] in
  let* record_id := fetchone_0 rows in
  do commit db (primary_conn self) then
  do zoom lsn_tracker set_lsn_tracker (record_write_lsn (primary_conn self)) then
  ret record_id.

(** [prefer_replica and self.lsn_tracker.replica_is_caught_up(...)]:
    the right operand is evaluated only when the left one is true. *)
Definition read_data (limit : Z) (prefer_replica : bool) :
    M (Σ := SmartDatabaseClient) (list row) :=
  let* self := get in
  let* use_replica :=
    if prefer_replica then
      let* caught_up := zoom lsn_tracker set_lsn_tracker
                          (replica_is_caught_up (replica_conn self)) in
      ret (truthy caught_up)
    else ret false in
  let conn := if use_replica then replica_conn self else primary_conn self in
  let* results := execute db conn select_sql [VInt limit] in
  ret results.

Definition close : M (Σ := SmartDatabaseClient) unit :=
  let* self := get in
  do Run.close db (primary_conn self) then
  Run.close db (replica_conn self).
End Methods.

End Pattern2.

(** ** Pattern 3: sticky sessions *)

Module Pattern3.

Import Py Pg Run.

(** The configuration dictionaries: the replicas have a ["name"], the
    primary has none. *)
Record node := { host : str; port : Z; name : option str }.

Record StickySessionRouter := {
  replicas : list node;
  primary : node;
  connections : gmap str conn
}.

Definition StickySessionRouter_init : StickySessionRouter :=
  {| replicas :=
       [ {| host := lit "localhost"; port := 5433; name := Some (lit "replica1") |};
         {| host := lit "localhost"; port := 5434; name := Some (lit "replica2") |} ];
     primary := {| host := lit "localhost"; port := 5432; name := None |};
     connections := ∅ |}.

Definition set_connections (m : gmap str conn) (self : StickySessionRouter) :
    StickySessionRouter :=
  {| replicas := replicas self; primary := primary self; connections := m |}.

(** [int(hashlib.md5(user_id.encode()).hexdigest(), 16)] *)
Definition hash_value (user_id : str) : result Z :=
  match encode user_id with
  | Raise e => Raise e
  | Return bytes => int16 (MD5.hexdigest bytes)
  end.

(** [get_replica_for_user] reads the router and calls no driver. *)
Definition select_replica (replicas : list node) (user_id : str) : result node :=
  match hash_value user_id with
  | Raise e => Raise e
  | Return hash_value =>
      let n := Z.of_nat (length replicas) in
      if n =? 0 then Raise ZeroDivisionError
      else
        let replica_index := hash_value mod n in
        match replicas !! Z.to_nat replica_index with
        | Some r => Return r
        | None => Raise IndexError
        end
  end.

(** [f"{db_config['host']}:{db_config['port']}"] *)
Definition connection_key (db_config : node) : str :=
  host db_config ++ lit ":" ++ str_of_int (port db_config).

(** The connection [psycopg2.connect(host=db_config['host'],
    port=db_config['port'], ...)] opens. *)
Definition conn_of (db_config : node) : conn :=
  {| conn_host := host db_config; conn_port := port db_config |}.

(** The key under which [get_connection] would cache a connection. *)
Definition conn_key (c : conn) : str :=
  conn_host c ++ lit ":" ++ str_of_int (conn_port c).

(** Every cached connection is cached under the key of its endpoint. *)
Definition keyed (self : StickySessionRouter) : Prop :=
  ∀ k c, connections self !! k = Some c → conn_key c = k.

(** [f"User-{user_id}: {data}"], the text a write stores. *)
Definition user_data (user_id data : str) : str :=
  lit "User-" ++ user_id ++ lit ": " ++ data.

(** [f"User-{user_id}:%"], the pattern a read filters with. *)
Definition user_pattern (user_id : str) : str :=
  lit "User-" ++ user_id ++ lit ":%".

Definition insert_sql : string :=
  "INSERT INTO replication_test (data) VALUES (%s) RETURNING id".
Definition select_like_sql : string :=
  "SELECT id, data, created_at FROM replication_test WHERE data LIKE %s ORDER BY id DESC LIMIT %s".

Section Methods.
Context (db : Pg.db).

Definition get_replica_for_user (user_id : str) : M (Σ := StickySessionRouter) node :=
  let* self := get in
  lift (select_replica (replicas self) user_id).

Definition get_connection (db_config : node) : M (Σ := StickySessionRouter) conn :=
  let key := connection_key db_config in
  let* self := get in
  do match connections self !! key with
     | Some _ => ret tt
     | None =>
         let c := conn_of db_config in
         do perform db (Connect c) then
         put (set_connections (<[key := c]> (connections self)) self)
     end then
  let* self := get in
  match connections self !! key with
  | Some c => ret c
  | None => raise KeyError
  end.

Definition write_for_user (user_id data : str) : M (Σ := StickySessionRouter) val :=
  let* self := get in
  let* conn := get_connection (primary self) in
  let* rows := execute db conn insert_sql [VStr (user_data user_id data)] in
  let* record_id := fetchone_0 rows in
  do commit db conn then
  ret record_id.

Definition read_for_user (user_id : str) (limit : Z) :
    M (Σ := StickySessionRouter) (list row) :=
  let* replica := get_replica_for_user user_id in
  let* conn := get_connection replica in
  let* results := execute db conn select_like_sql
                    [VStr (user_pattern user_id); VInt limit] in
  do match name replica with
     | Some _ => ret tt
     | None => raise KeyError
     end then
  ret results.
End Methods.

End Pattern3.

(** ** Calls on a router, one after the other *)

Module Calls.

Import Py Pg Run Pattern3.

(** The methods of [StickySessionRouter] a caller can invoke. *)
Inductive call :=
| GetReplicaForUser (user_id : str)
| GetConnection (db_config : node)
| WriteForUser (user_id data : str)
| ReadForUser (user_id : str) (limit : Z).

Definition forget {Σ A} (m : M (Σ := Σ) A) : Σ → list action → Σ * list action :=
  λ σ h, match m σ h with (_, σ', h') => (σ', h') end.

Definition run_call (db : Pg.db) (c : call) :
    StickySessionRouter → list action → StickySessionRouter * list action :=
  match c with
  | GetReplicaForUser u => forget (get_replica_for_user u)
  | GetConnection cfg => forget (get_connection db cfg)
  | WriteForUser u d => forget (write_for_user db u d)
  | ReadForUser u l => forget (read_for_user db u l)
  end.

(** The caller goes on with the next call whether or not the previous
    one raised. *)
Fixpoint run_calls (db : Pg.db) (cs : list call)
    (σ : StickySessionRouter) (h : list action) : StickySessionRouter * list action :=
  match cs with
  | [] => (σ, h)
  | c :: cs' => let '(σ', h') := run_call db c σ h in run_calls db cs' σ' h'
  end.

End Calls.

(** ** Two environments to run the code in *)

Module Env.

Import Py Pg.

Global Instance conn_eq_dec : EqDecision conn.
Proof. solve_decision. Defined.

Inductive replica_state :=
| Replaying (replay_lsn : Z)
| Unreachable.

(** A primary at the position [current_lsn] and replicas in the state
    [replica]; the positions do not move. *)
Record cluster := {
  primary : conn;
  current_lsn : Z;
  replica : replica_state
}.

Definition inserts_before (h : list action) : Z :=
  Z.of_nat (length (filter (λ a, match a with
                                  | Execute _ q _ =>
                                      bool_decide (q = Pattern2.insert_sql)
                                  | _ => false
                                  end = true) h)).

(** The answers of such a cluster.  On the primary the replay position
    is NULL; on a replica the current position is refused, as is an
    insertion; a comparison is evaluated by either; an unreachable
    replica fails every call.  A query on the table returns no row. *)
Definition serve (cl : cluster) : db := λ h a,
  if bool_decide (action_conn a = primary cl) then
    match a with
    | Execute _ q ps =>
        if bool_decide (q = Pattern2.current_lsn_sql) then
          Return [[VStr (pg_lsn_out (current_lsn cl))]]
        else if bool_decide (q = Pattern2.replay_lsn_sql) then Return [[VNone]]
        else if bool_decide (q = Pattern2.compare_sql) then
          match ps with
          | [x; y] => select_le x y
          | _ => Raise (DatabaseError "syntax error")
          end
        else if bool_decide (q = Pattern2.insert_sql) then
          Return [[VInt (1 + inserts_before h)]]
        else Return []
    | _ => Return []
    end
  else
    match replica cl with
    | Unreachable => Raise (DatabaseError "could not connect to server")
    | Replaying pos =>
        match a with
        | Execute _ q ps =>
            if bool_decide (q = Pattern2.current_lsn_sql) then
              Raise (DatabaseError "recovery is in progress")
            else if bool_decide (q = Pattern2.replay_lsn_sql) then
              Return [[VStr (pg_lsn_out pos)]]
            else if bool_decide (q = Pattern2.compare_sql) then
              match ps with
              | [x; y] => select_le x y
              | _ => Raise (DatabaseError "syntax error")
              end
            else if bool_decide (q = Pattern2.insert_sql) then
              Raise (DatabaseError "cannot execute INSERT in a read-only transaction")
            else Return []
        | _ => Return []
        end
    end.

(** The replica is behind the write: it has replayed up to 0/9FFFFD8
    and the primary is at 0/10000028. *)
Definition lagging : cluster :=
  {| primary := Pattern2.primary_endpoint;
     current_lsn := 0x10000028;
     replica := Replaying 0x9FFFFD8 |}.

(** The replica has replayed past the write. *)
Definition caught_up : cluster :=
  {| primary := Pattern2.primary_endpoint;
     current_lsn := 0x9FFFFD8;
     replica := Replaying 0x10000028 |}.

Definition replica_down : cluster :=
  {| primary := Pattern2.primary_endpoint;
     current_lsn := 0x10000028;
     replica := Unreachable |}.

End Env.

(** ** The script that creates replication lag *)

Module CreateLag.

Import Py Pg Run.

Definition primary_endpoint : conn := {| conn_host := lit "localhost"; conn_port := 5432 |}.

Definition bulk_insert_sql : string :=
  "
            INSERT INTO replication_test (data)
            SELECT 
                'Large-Data-' || i || '-' || repeat('X', 500)
            FROM generate_series(1, 500000) i
        ".

Definition replication_status_sql : string :=
  "
            SELECT 
                application_name,
                pg_size_pretty(pg_wal_lsn_diff(pg_current_wal_lsn(), replay_lsn)) AS lag_size,
                ROUND(EXTRACT(EPOCH FROM replay_lag)::numeric, 2) AS lag_sec
            FROM pg_stat_replication
        ".

Section Script.
Context (db : Pg.db).

(** [app_name, lag_size, lag_sec = row]: a row of any other size than
    three is a [ValueError]. *)
Definition unpack_3 (row : Pg.row) : M (Σ := unit) unit :=
  match row with
  | [_; _; _] => ret tt
  | _ => raise ValueError
  end.

(** [for row in results: ...] *)
Fixpoint for_each_row (results : list Pg.row) : M (Σ := unit) unit :=
  match results with
  | [] => ret tt
  | row :: rest => do unpack_3 row then for_each_row rest
  end.

(** [create_replication_lag()]; it has no object, its state is empty.
    The clock readings and the prints are left out. *)
Definition create_replication_lag : M (Σ := unit) unit :=
  let conn := primary_endpoint in
  do perform db (Connect conn) then
  do execute db conn bulk_insert_sql [] then
  do commit db conn then
  let* results := execute db conn replication_status_sql [] in
  do for_each_row results then
  Run.close db conn.
End Script.

End CreateLag.

(** ** More environments *)

Module Env2.

Import Py Pg.

(** A primary that accepts and commits the insertion and then fails to
    report its position. *)
Definition position_unavailable : db := λ h a,
  match a with
  | Execute _ q _ =>
      if bool_decide (q = Pattern2.current_lsn_sql) then
        Raise (DatabaseError "server closed the connection unexpectedly")
      else if bool_decide (q = Pattern2.insert_sql) then
        Return [[VInt (1 + Env.inserts_before h)]]
      else Return []
  | _ => Return []
  end.

(** A primary on which the insertion violates a constraint. *)
Definition insert_refused : db := λ h a,
  match a with
  | Execute _ q _ =>
      if bool_decide (q = Pattern2.insert_sql) then
        Raise (DatabaseError "value too long")
      else Return []
  | _ => Return []
  end.

(** Every connection is refused. *)
Definition nobody_home : db := λ h a,
  match a with
  | Connect _ => Raise (DatabaseError "connection refused")
  | _ => Return []
  end.

End Env2.

(** ** Tactics and trace predicates used below *)

(** The statements stay folded while a method is unfolded. *)
Arguments Pattern1.insert_sql : simpl never.
Arguments Pattern1.select_sql : simpl never.
Arguments Pattern2.current_lsn_sql : simpl never.
Arguments Pattern2.replay_lsn_sql : simpl never.
Arguments Pattern2.compare_sql : simpl never.
Arguments Pattern2.insert_sql : simpl never.
Arguments Pattern2.select_sql : simpl never.
Arguments Pattern3.insert_sql : simpl never.
Arguments Pattern3.select_like_sql : simpl never.

(** Unfold a method down to the answers of the environment, and split
    on each of them. *)
Ltac unfold_method :=
  unfold Run.zoom, Run.commit, Run.close, Run.execute, Run.perform, Run.bind,
    Run.get, Run.put, Run.ret, Run.raise, Run.lift; simpl.

Ltac split_answers :=
  repeat match goal with
    | |- context [match ?db ?h ?a with Py.Return _ => _ | Py.Raise _ => _ end] =>
        destruct (db h a) as [[|[|? ?] ?]|?]; simpl
    | |- context [let (_, _) := match ?db ?h ?a with
                                | Py.Return _ => _ | Py.Raise _ => _ end in _] =>
        destruct (db h a) as [[|[|? ?] ?]|?]; simpl
    end.

(** A trace grown by actions that all satisfy [P]. *)
Definition grown_by (P : Pg.action → Prop) (h h' : list Pg.action) : Prop :=
  ∃ new, h' = h ++ new ∧ Forall P new.

(** What a method of the router keeps, from the router [σ] and trace
    [h] it starts from to those it ends with: the cache stays keyed,
    the configuration is the same, and the trace has grown by actions
    that satisfy [P]. *)
Definition router_post (P : Pg.action → Prop)
    (σ : Pattern3.StickySessionRouter) (h : list Pg.action)
    (σ' : Pattern3.StickySessionRouter) (h' : list Pg.action) : Prop :=
  Pattern3.keyed σ'
  ∧ Pattern3.replicas σ' = Pattern3.replicas σ
  ∧ Pattern3.primary σ' = Pattern3.primary σ
  ∧ grown_by P h h'.

(** Not opening a connection to an endpoint the router [σ] has one
    for. *)
Definition reuses (σ : Pattern3.StickySessionRouter) (a : Pg.action) : Prop :=
  ∀ c, is_Some (Pattern3.connections σ !! Pattern3.conn_key c) → a ≠ Pg.Connect c.

(** The router [σ'] has a connection wherever [σ] has one. *)
Definition cache_grows (σ σ' : Pattern3.StickySessionRouter) : Prop :=
  ∀ k, is_Some (Pattern3.connections σ !! k) → is_Some (Pattern3.connections σ' !! k).

(** A character that stands for itself in a LIKE pattern: neither [%],
    nor [_], nor the backslash. *)
Definition plain (c : Z) : Prop := c ≠ 37 ∧ c ≠ 95 ∧ c ≠ 92.

(** The digits of [%X]: their characters, their values, and the number
    a string of them stands for. *)
Definition is_digit_upper (c : Z) : Prop := 48 ≤ c ≤ 57 ∨ 65 ≤ c ≤ 70.

Definition digit_upper (c : Z) : Z := if c <? 58 then c - 48 else c - 55.

Fixpoint hex_number (s : Py.str) : Z :=
  match s with
  | [] => 0
  | c :: s' => digit_upper c * 16 ^ Z.of_nat (length s') + hex_number s'
  end.

(** The number of digits [%X] prints a 32-bit half with. *)
Definition hex_width (n : Z) : nat := length (Pg.hex_upper 8 n []).

(** * Properties *)

(** ** The model of MD5 against known digests *)

Example md5_empty :
  MD5.hexdigest [] = Py.lit "d41d8cd98f00b204e9800998ecf8427e".
Proof. vm_compute. reflexivity. Qed.

Example md5_alice :
  Pattern3.hash_value (Py.lit "alice") = Py.Return 0x6384e2b2184bcbf58eccf10ca7a6563c.
Proof. vm_compute. reflexivity. Qed.

Example md5_two_blocks :
  MD5.hexdigest (replicate 56 120) = Py.lit "668a72d5ba17f08e62dabcafad6db14b".
Proof. vm_compute. reflexivity. Qed.

Example md5_three_blocks :
  MD5.hexdigest (replicate 120 120) = Py.lit "fb98667f98096de92620b64f46e1c5b5".
Proof. vm_compute. reflexivity. Qed.

(** ** Running the methods *)

Section Running.
Import Py Pg Run.
Context (db : Pg.db).

Lemma bind_eq {Σ A B} (m : M (Σ := Σ) A) (k : A → M B) σ h :
  bind m k σ h =
    match m σ h with
    | (Return a, σ', h') => k a σ' h'
    | (Raise e, σ', h') => (Raise e, σ', h')
    end.
Proof. reflexivity. Qed.

End Running.

(** ** Traces *)

Lemma grown_by_refl P h : grown_by P h h.
Proof. exists []. split; [by rewrite app_nil_r | constructor]. Qed.

Lemma grown_by_snoc P h h' a : grown_by P h h' → P a → grown_by P h (h' ++ [a]).
Proof.
  intros (new & -> & Hnew) Ha. exists (new ++ [a]). split.
  - by rewrite app_assoc.
  - apply Forall_app. split; [done | by constructor].
Qed.

Lemma grown_by_trans P h1 h2 h3 :
  grown_by P h1 h2 → grown_by P h2 h3 → grown_by P h1 h3.
Proof.
  intros (n1 & -> & H1) (n2 & -> & H2). exists (n1 ++ n2). split.
  - by rewrite app_assoc.
  - by apply Forall_app.
Qed.

Create HintDb trace.
#[local] Hint Resolve grown_by_refl grown_by_snoc : trace.

(** ** Pattern 2: what a read without [prefer_replica] does *)

Section Pattern2_reads.
Import Py Pg Run Pattern2.
Context (db : Pg.db).

(** C10. With [prefer_replica=False] the read of the log-position
    router performs exactly one call on the driver, the SELECT on the
    primary connection, and answers with its rows (or its error): the
    caught-up check is not evaluated, so the replay position of the
    replica is never asked for, and the tracker is left as it was. *)
Theorem read_data_not_preferring_replica (limit : Z)
    (self : SmartDatabaseClient) (h : list action) :
  let query := Execute (primary_conn self) select_sql [VInt limit] in
  read_data db limit false self h = (db h query, self, h ++ [query])
  ∧ (∀ c params, query ≠ Execute c replay_lsn_sql params)
  ∧ action_conn query = primary_conn self.
Proof.
  split; [|split; [intros c params; discriminate | reflexivity]].
  unfold read_data. unfold_method. by destruct (db h _).
Qed.
End Pattern2_reads.

(** ** Reads leave the session state alone *)

Section Frame.
Import Py Pg Run.
Context (db : Pg.db).

Lemma set_session_id (self : Pattern1.DatabaseClient) :
  Pattern1.set_session (Pattern1.session self) self = self.
Proof. by destruct self. Qed.

Lemma set_lsn_tracker_id (self : Pattern2.SmartDatabaseClient) :
  Pattern2.set_lsn_tracker (Pattern2.lsn_tracker self) self = self.
Proof. by destruct self. Qed.

(** The caught-up check reads the tracker and never writes it. *)
Lemma replica_is_caught_up_frame c (t : Pattern2.LSNTracker) h :
  (Pattern2.replica_is_caught_up db c t h).1.2 = t.
Proof.
  unfold Pattern2.replica_is_caught_up. unfold_method.
  destruct (truthy _); simpl; [|done].
  split_answers; try done.
Qed.

Lemma read_data_1_frame now limit (self : Pattern1.DatabaseClient) h :
  (Pattern1.read_data db now limit self h).1.2 = self.
Proof.
  unfold Pattern1.read_data. unfold_method.
  by destruct (db h _).
Qed.

Lemma read_data_2_frame limit prefer (self : Pattern2.SmartDatabaseClient) h :
  (Pattern2.read_data db limit prefer self h).1.2 = self.
Proof.
  unfold Pattern2.read_data. destruct prefer.
  - pose proof (replica_is_caught_up_frame
                  (Pattern2.replica_conn self) (Pattern2.lsn_tracker self) h) as Hf.
    unfold_method.
    destruct (Pattern2.replica_is_caught_up db _ _ h) as [[r t] h'].
    simpl in Hf. subst t. rewrite set_lsn_tracker_id.
    destruct r; simpl; [|done].
    by destruct (db h' _).
  - unfold_method. by destruct (db h _).
Qed.

Lemma close_1_frame (self : Pattern1.DatabaseClient) h :
  (Pattern1.close db self h).1.2 = self.
Proof.
  unfold Pattern1.close. unfold_method.
  destruct (db h _); simpl; [|done]. by destruct (db _ _).
Qed.

Lemma close_2_frame (self : Pattern2.SmartDatabaseClient) h :
  (Pattern2.close db self h).1.2 = self.
Proof.
  unfold Pattern2.close. unfold_method.
  destruct (db h _); simpl; [|done]. by destruct (db _ _).
Qed.
End Frame.

(** C9. A read never changes the session state: whatever the servers
    answer, and whether the read returns or raises, the client of the
    time-based router has the same [session] (hence the same
    [last_write_time]) after [read_data] as before, and the client of
    the log-position router the same [lsn_tracker] (hence the same
    [last_write_lsn]); the same holds of the caught-up check and of
    [close], which leaves [write_data] as the only method that assigns
    them. *)
Theorem reads_do_not_mutate_the_session (db : Pg.db) :
  (∀ now limit self h,
     Pattern1.session (Pattern1.read_data db now limit self h).1.2
     = Pattern1.session self)
  ∧ (∀ limit prefer_replica self h,
     Pattern2.lsn_tracker (Pattern2.read_data db limit prefer_replica self h).1.2
     = Pattern2.lsn_tracker self)
  ∧ (∀ c tracker h,
     (Pattern2.replica_is_caught_up db c tracker h).1.2 = tracker)
  ∧ (∀ self h, Pattern1.session (Pattern1.close db self h).1.2 = Pattern1.session self)
  ∧ (∀ self h,
     Pattern2.lsn_tracker (Pattern2.close db self h).1.2 = Pattern2.lsn_tracker self).
Proof.
  repeat split; intros.
  - by rewrite read_data_1_frame.
  - by rewrite read_data_2_frame.
  - apply replica_is_caught_up_frame.
  - by rewrite close_1_frame.
  - by rewrite close_2_frame.
Qed.

(** A write does assign them. *)
Lemma write_data_1_records db now data (self : Pattern1.DatabaseClient) h r self' h' :
  Pattern1.write_data db now data self h = (Py.Return r, self', h') →
  Pattern1.last_write_time (Pattern1.session self') = Some now.
Proof.
  unfold Pattern1.write_data. unfold_method.
  destruct (db h _) as [[|[|v row] rows]|e]; simpl; try discriminate.
  destruct (db _ _); simpl; [|discriminate].
  by intros [= <- <- <-].
Qed.

(** ** The position check of pattern 2 *)

Section Pattern2_check.
Import Py Pg Run Pattern2.
Context (db : Pg.db).

(** Before any write the check answers [True] and asks nothing. *)
Lemma replica_is_caught_up_no_write c (t : LSNTracker) h :
  truthy (last_write_lsn t) = false →
  replica_is_caught_up db c t h = (Return (VBool true), t, h).
Proof.
  intros Ht. unfold replica_is_caught_up. unfold_method. by rewrite Ht.
Qed.

(** After a write it asks the replica for its position and then for
    the comparison, and answers what the comparison answered. *)
Lemma replica_is_caught_up_asks c (t : LSNTracker) h pos rest :
  truthy (last_write_lsn t) = true →
  db h (Execute c replay_lsn_sql []) = Return ((pos :: rest) :: []) →
  let h1 := h ++ [Execute c replay_lsn_sql []] in
  let cmp := Execute c compare_sql [last_write_lsn t; pos] in
  replica_is_caught_up db c t h =
    (match db h1 cmp with
     | Return [] => Raise TypeError
     | Return ([] :: _) => Raise IndexError
     | Return ((v :: _) :: _) => Return v
     | Raise e => Raise e
     end, t, h1 ++ [cmp]).
Proof.
  intros Ht Hpos. unfold replica_is_caught_up. unfold_method.
  rewrite Ht. simpl. rewrite Hpos. simpl.
  by destruct (db (h ++ _) _) as [[|[|? ?] ?]|?].
Qed.

(** When the replica cannot report its position the check raises. *)
Lemma replica_is_caught_up_raises c (t : LSNTracker) h e :
  truthy (last_write_lsn t) = true →
  db h (Execute c replay_lsn_sql []) = Raise e →
  replica_is_caught_up db c t h = (Raise e, t, h ++ [Execute c replay_lsn_sql []]).
Proof.
  intros Ht Hpos. unfold replica_is_caught_up. unfold_method.
  rewrite Ht. simpl. by rewrite Hpos.
Qed.

(** C2, as the code has it.  Once a write position is recorded, a
    failure of the query for the replica's replay position is not
    turned into an answer: [replica_is_caught_up] raises the error of
    the driver (it returns neither true nor false), and [read_data]
    raises it in turn, having asked for nothing else: the read is
    performed on no node, neither the replica nor the primary. *)
Theorem position_failure_propagates (limit : Z)
    (self : SmartDatabaseClient) (h : list action) (e : exn) :
  truthy (last_write_lsn (lsn_tracker self)) = true →
  db h (Execute (replica_conn self) replay_lsn_sql []) = Raise e →
  let asked := Execute (replica_conn self) replay_lsn_sql [] in
  replica_is_caught_up db (replica_conn self) (lsn_tracker self) h
    = (Raise e, lsn_tracker self, h ++ [asked])
  ∧ read_data db limit true self h = (Raise e, self, h ++ [asked]).
Proof.
  intros Ht Hpos asked.
  pose proof (replica_is_caught_up_raises _ _ _ _ Ht Hpos) as Hc.
  split; [exact Hc|].
  unfold read_data. unfold_method. rewrite Hc. simpl.
  by rewrite set_lsn_tracker_id.
Qed.
End Pattern2_check.

(** A client that has written at 0/10000028, and an unreachable replica. *)
Lemma position_failure_propagates_witness :
  let self := {| Pattern2.primary_conn := Pattern2.primary_endpoint;
                 Pattern2.replica_conn := Pattern2.replica_endpoint;
                 Pattern2.lsn_tracker :=
                   {| Pattern2.last_write_lsn := Py.VStr (Pg.pg_lsn_out 0x10000028) |} |} in
  let asked := Pg.Execute Pattern2.replica_endpoint Pattern2.replay_lsn_sql [] in
  let e := Py.DatabaseError "could not connect to server" in
  Pattern2.replica_is_caught_up (Env.serve Env.replica_down)
      Pattern2.replica_endpoint (Pattern2.lsn_tracker self) []
    = (Py.Raise e, Pattern2.lsn_tracker self, [asked])
  ∧ Pattern2.read_data (Env.serve Env.replica_down) 5 true self []
    = (Py.Raise e, self, [asked]).
Proof.
  exact (position_failure_propagates (Env.serve Env.replica_down) 5
           {| Pattern2.primary_conn := Pattern2.primary_endpoint;
              Pattern2.replica_conn := Pattern2.replica_endpoint;
              Pattern2.lsn_tracker :=
                {| Pattern2.last_write_lsn := Py.VStr (Pg.pg_lsn_out 0x10000028) |} |}
           [] (Py.DatabaseError "could not connect to server")
           eq_refl eq_refl).
Defined.

(** C2 as stated fails: with a write recorded at 0/10000028 and an
    unreachable replica, [replica_is_caught_up] does not return false
    (it returns nothing, it raises), and the read that follows is not
    routed to the primary: [read_data] raises as well and no action at
    all is performed on the primary connection. *)
Lemma position_failure_does_not_return_false :
  let self := {| Pattern2.primary_conn := Pattern2.primary_endpoint;
                 Pattern2.replica_conn := Pattern2.replica_endpoint;
                 Pattern2.lsn_tracker :=
                   {| Pattern2.last_write_lsn := Py.VStr (Py.lit "0/10000028") |} |} in
  let db := Env.serve Env.replica_down in
  let check := Pattern2.replica_is_caught_up db (Pattern2.replica_conn self)
                 (Pattern2.lsn_tracker self) [] in
  let read := Pattern2.read_data db 5 true self [] in
  db [] (Pg.Execute (Pattern2.replica_conn self) Pattern2.replay_lsn_sql [])
    = Py.Raise (Py.DatabaseError "could not connect to server")
  ∧ ¬ (∃ v, check.1.1 = Py.Return v)
  ∧ ¬ (∃ rows, read.1.1 = Py.Return rows)
  ∧ Forall (λ a, Pg.action_conn a ≠ Pattern2.primary_conn self) read.2.
Proof.
  vm_compute. repeat split.
  - intros [v Hv]. discriminate Hv.
  - intros [rows Hr]. discriminate Hr.
  - repeat constructor. discriminate.
Qed.

(** ** The comparison of positions *)

(** The server prints positions without padding, so that their text
    does not sort as they do. *)
Example positions_printed :
  Pg.pg_lsn_out 0x10000028 = Py.lit "0/10000028"
  ∧ Pg.pg_lsn_out 0x9FFFFD8 = Py.lit "0/9FFFFD8"
  ∧ Pg.pg_lsn_in (Py.lit "0/10000028") = Some 0x10000028
  ∧ Pg.pg_lsn_in (Py.lit "0/9FFFFD8") = Some 0x9FFFFD8.
Proof. vm_compute. done. Qed.

Lemma pg_lsn_out_truthy (n : Z) : Py.truthy (Py.VStr (Pg.pg_lsn_out n)) = true.
Proof.
  unfold Pg.pg_lsn_out.
  generalize (Pg.hex_upper 8 (n ≫ 32) []) (Pg.hex_upper 8 (Z.land n 0xFFFFFFFF) []).
  by intros [|c hi] lo.
Qed.

(** C1 at a failing input.  The write was recorded at 0/10000028 and
    the replica has replayed up to 0/9FFFFD8 only, which is strictly
    below in the order of log positions; [replica_is_caught_up]
    answers [True] all the same, and the read that follows the write
    is served by the replica. *)
Theorem lagging_replica_passes_the_check :
  let db := Env.serve Env.lagging in
  let tracker := {| Pattern2.last_write_lsn := Py.VStr (Py.lit "0/10000028") |} in
  let client := {| Pattern2.primary_conn := Pattern2.primary_endpoint;
                   Pattern2.replica_conn := Pattern2.replica_endpoint;
                   Pattern2.lsn_tracker := Pattern2.LSNTracker_init |} in
  Pg.lsn_le (Py.lit "0/10000028") (Py.lit "0/9FFFFD8") = Some false
  ∧ (Pattern2.replica_is_caught_up db Pattern2.replica_endpoint tracker []).1.1
    = Py.Return (Py.VBool true)
  ∧ (let '(_, written, h) := Pattern2.write_data db (Py.lit "Pattern2-LSN-Test") client [] in
     Pattern2.lsn_tracker written = tracker
     ∧ last (Pattern2.read_data db 3 true written h).2
       = Some (Pg.Execute Pattern2.replica_endpoint Pattern2.select_sql [Py.VInt 3])).
Proof. vm_compute. done. Qed.

(** What the check answers on a cluster that answers as PostgreSQL
    does: the text of the recorded position compared with the text of
    the replica's position. *)
Lemma replica_is_caught_up_compares_text (w r : Z) (h : list Pg.action) :
  (Pattern2.replica_is_caught_up
     (Env.serve {| Env.primary := Pattern2.primary_endpoint;
                   Env.current_lsn := w;
                   Env.replica := Env.Replaying r |})
     Pattern2.replica_endpoint
     {| Pattern2.last_write_lsn := Py.VStr (Pg.pg_lsn_out w) |} h).1.1
  = Py.Return (Py.VBool (Pg.text_le (Pg.pg_lsn_out w) (Pg.pg_lsn_out r))).
Proof.
  erewrite replica_is_caught_up_asks;
    [| apply pg_lsn_out_truthy | reflexivity].
  reflexivity.
Qed.

(** C3 at failing inputs.  The comparison that decides
    [replica_is_caught_up] is the comparison of the two texts, and it
    differs from the order of log positions both ways: 0/10000028 is
    above 0/9FFFFD8 as a position and below it as text, so a lagging
    replica is taken for caught up, and a replica at 0/10000028 is
    taken for lagging behind a write at 0/9FFFFD8. *)
Theorem positions_are_compared_as_text :
  (∀ w r h,
     (Pattern2.replica_is_caught_up
        (Env.serve {| Env.primary := Pattern2.primary_endpoint;
                      Env.current_lsn := w;
                      Env.replica := Env.Replaying r |})
        Pattern2.replica_endpoint
        {| Pattern2.last_write_lsn := Py.VStr (Pg.pg_lsn_out w) |} h).1.1
     = Py.Return (Py.VBool (Pg.text_le (Pg.pg_lsn_out w) (Pg.pg_lsn_out r))))
  ∧ Pg.text_le (Pg.pg_lsn_out 0x10000028) (Pg.pg_lsn_out 0x9FFFFD8) = true
  ∧ Pg.lsn_le (Pg.pg_lsn_out 0x10000028) (Pg.pg_lsn_out 0x9FFFFD8) = Some false
  ∧ Pg.text_le (Pg.pg_lsn_out 0x9FFFFD8) (Pg.pg_lsn_out 0x10000028) = false
  ∧ Pg.lsn_le (Pg.pg_lsn_out 0x9FFFFD8) (Pg.pg_lsn_out 0x10000028) = Some true
  ∧ (Pattern2.replica_is_caught_up (Env.serve Env.caught_up)
       Pattern2.replica_endpoint
       {| Pattern2.last_write_lsn := Py.VStr (Pg.pg_lsn_out 0x9FFFFD8) |} []).1.1
    = Py.Return (Py.VBool false).
Proof.
  split; [apply replica_is_caught_up_compares_text|].
  vm_compute. done.
Qed.

(** ** Connection keys *)

Section Keys.
Import Py Pg Pattern3.

Lemma lit_cons (a : Ascii.ascii) (s : string) :
  lit (String a s) = Z.of_nat (Ascii.nat_of_ascii a) :: lit s.
Proof. reflexivity. Qed.

Lemma lit_inj (s1 s2 : string) : lit s1 = lit s2 → s1 = s2.
Proof.
  revert s2. induction s1 as [|a s1 IH]; intros [|b s2]; try done.
  rewrite !lit_cons. intros [= Hab Hs].
  f_equal; [|by apply IH].
  apply Nat2Z.inj in Hab.
  rewrite <- (Ascii.ascii_nat_embedding a), <- (Ascii.ascii_nat_embedding b).
  by rewrite Hab.
Qed.

(** A decimal digit is not a colon. *)
Lemma pretty_N_char_not_colon (x : N) :
  Z.of_nat (Ascii.nat_of_ascii (pretty_N_char x)) ≠ 58.
Proof. unfold pretty_N_char. by repeat case_match. Qed.

Lemma pretty_N_go_no_colon (x : N) (s : string) :
  58 ∉ lit s → 58 ∉ lit (pretty_N_go x s).
Proof.
  revert s. induction (N.lt_wf_0 x) as [x _ IH]; intros s Hs.
  assert (x = 0 ∨ 0 < x)%N as [->|Hx] by lia.
  - by rewrite pretty_N_go_0.
  - rewrite pretty_N_go_step by done. apply IH.
    + by apply N.div_lt.
    + rewrite lit_cons, not_elem_of_cons. split; [|done].
      intros Heq. by apply (pretty_N_char_not_colon (x `mod` 10)%N).
Qed.

Lemma pretty_N_no_colon (x : N) : 58 ∉ lit (pretty x).
Proof.
  unfold pretty, pretty_N. case_decide.
  - vm_compute. by intros ?%list_elem_of_singleton.
  - apply pretty_N_go_no_colon. simpl. apply not_elem_of_nil.
Qed.

Lemma str_of_int_no_colon (n : Z) : 58 ∉ str_of_int n.
Proof.
  unfold str_of_int, pretty, pretty_Z. destruct n as [|p|p].
  - vm_compute. by intros ?%list_elem_of_singleton.
  - apply pretty_N_no_colon.
  - change (58 ∉ 45 :: lit (pretty (N.pos p))).
    rewrite not_elem_of_cons. split; [done | apply pretty_N_no_colon].
Qed.

Lemma str_of_int_inj (n m : Z) : str_of_int n = str_of_int m → n = m.
Proof. intros H%lit_inj. by apply (inj pretty). Qed.

(** A key splits at its last colon in one way only. *)
Lemma split_at_last_colon (l1 l2 d1 d2 : str) :
  58 ∉ d1 → 58 ∉ d2 →
  l1 ++ 58 :: d1 = l2 ++ 58 :: d2 → l1 = l2 ∧ d1 = d2.
Proof.
  intros H1 H2. revert l2.
  induction l1 as [|x l1 IH]; intros [|y l2]; simpl; intros Heq.
  - by injection Heq.
  - injection Heq as <- ->. exfalso. apply H1.
    apply elem_of_app. right. by left.
  - injection Heq as -> <-. exfalso. apply H2.
    apply elem_of_app. right. by left.
  - injection Heq as -> Heq. destruct (IH _ Heq) as [-> ->]. done.
Qed.

Lemma conn_key_inj (c1 c2 : conn) : conn_key c1 = conn_key c2 → c1 = c2.
Proof.
  destruct c1 as [h1 p1], c2 as [h2 p2]. unfold conn_key. simpl.
  change (lit ":") with [58]. simpl. intros Heq.
  apply split_at_last_colon in Heq as [-> Hp]; try apply str_of_int_no_colon.
  by apply str_of_int_inj in Hp as ->.
Qed.

Lemma conn_key_conn_of (cfg : node) : conn_key (conn_of cfg) = connection_key cfg.
Proof. reflexivity. Qed.
End Keys.

(** ** The sticky router *)

Section Router.
Import Py Pg Run Pattern3.
Context (db : Pg.db).

Lemma grown_by_weaken (P Q : action → Prop) h h' :
  (∀ a, P a → Q a) → grown_by P h h' → grown_by Q h h'.
Proof.
  intros HPQ (new & -> & Hnew). exists new. split; [done|].
  eapply Forall_impl; eauto.
Qed.

Lemma router_post_refl P σ h : keyed σ → router_post P σ h σ h.
Proof. intros Hk. repeat split; auto with trace. Qed.

Lemma router_post_weaken (P Q : action → Prop) σ h σ' h' :
  (∀ a, P a → Q a) → router_post P σ h σ' h' → router_post Q σ h σ' h'.
Proof.
  intros HPQ (Hk & Hr & Hp & Hg). repeat split; try done.
  eapply grown_by_weaken; eauto.
Qed.

Lemma keyed_init : keyed StickySessionRouter_init.
Proof. intros k c. unfold StickySessionRouter_init. simpl. by rewrite lookup_empty. Qed.

(** [get_replica_for_user] calls no driver and changes nothing. *)
Lemma get_replica_for_user_eq user_id σ h :
  get_replica_for_user user_id σ h = (select_replica (replicas σ) user_id, σ, h).
Proof. reflexivity. Qed.

Lemma select_replica_elem rs user_id r :
  select_replica rs user_id = Return r → r ∈ rs.
Proof.
  unfold select_replica. destruct (hash_value user_id); [|done].
  destruct (_ =? 0); [done|].
  destruct (rs !! _) eqn:E; [|done].
  intros [= <-]. eapply list_elem_of_lookup_2; eauto.
Qed.

(** [get_connection] opens at most one connection, to the endpoint of
    the configuration it is given, and returns a connection to that
    endpoint. *)
Lemma get_connection_spec cfg σ h r σ' h' :
  keyed σ →
  get_connection db cfg σ h = (r, σ', h') →
  router_post (λ a, a = Connect (conn_of cfg)) σ h σ' h'
  ∧ (∀ c, r = Return c → c = conn_of cfg).
Proof.
  intros Hk. unfold get_connection. unfold_method.
  destruct (connections σ !! connection_key cfg) as [c0|] eqn:E; simpl.
  - rewrite E. intros [= <- <- <-]. split; [by apply router_post_refl|].
    intros c [= <-]. apply conn_key_inj. rewrite conn_key_conn_of. by apply Hk.
  - destruct (db h (Connect (conn_of cfg))) as [rows|e]; simpl.
    + rewrite lookup_insert_eq. intros [= <- <- <-].
      split; [|by intros c [= <-]].
      repeat split; simpl; auto with trace.
      intros k c. simpl. rewrite lookup_insert. case_decide as Hkey.
      * intros [= <-]. by rewrite conn_key_conn_of.
      * apply Hk.
    + intros [= <- <- <-]. split; [|done].
      repeat split; auto with trace.
Qed.

(** A write connects to, executes on and commits on the connection to
    the primary, and on no other. *)
Lemma write_for_user_spec user_id data σ h r σ' h' :
  keyed σ →
  write_for_user db user_id data σ h = (r, σ', h') →
  router_post (λ a, action_conn a = conn_of (primary σ)) σ h σ' h'.
Proof.
  intros Hk. unfold write_for_user.
  rewrite bind_eq. unfold get at 1. rewrite bind_eq.
  destruct (get_connection db (primary σ) σ h) as [[rc σ1] h1] eqn:Hc.
  destruct (get_connection_spec _ _ _ _ _ _ Hk Hc) as [Hpost Hret].
  apply (router_post_weaken _ (λ a, action_conn a = conn_of (primary σ))) in Hpost;
    [|by intros a ->].
  destruct rc as [c|e]; [|by intros [= <- <- <-]].
  rewrite (Hret c eq_refl). clear Hret Hc.
  destruct Hpost as (Hk1 & Hr1 & Hp1 & Hg1).
  unfold_method.
  destruct (db h1 _) as [[|[|v row] rows]|e]; simpl;
    try (intros [= <- <- <-]; repeat split; auto with trace).
  destruct (db _ (Commit _)); simpl;
    intros [= <- <- <-]; repeat split; auto with trace.
Qed.

(** A read goes to the replica selected for the user. *)
Lemma read_for_user_spec user_id limit σ h r σ' h' :
  keyed σ →
  read_for_user db user_id limit σ h = (r, σ', h') →
  router_post (λ a, ∃ n, select_replica (replicas σ) user_id = Return n
                         ∧ action_conn a = conn_of n) σ h σ' h'.
Proof.
  intros Hk. unfold read_for_user.
  rewrite bind_eq, get_replica_for_user_eq.
  destruct (select_replica (replicas σ) user_id) as [n|e] eqn:Hsel;
    [|intros [= <- <- <-]; by apply router_post_refl].
  rewrite bind_eq.
  destruct (get_connection db n σ h) as [[rc σ1] h1] eqn:Hc.
  destruct (get_connection_spec _ _ _ _ _ _ Hk Hc) as [Hpost Hret].
  apply (router_post_weaken _ (λ a, ∃ n0, Return n = Return n0
                                          ∧ action_conn a = conn_of n0)) in Hpost;
    [|intros a ->; by exists n].
  destruct rc as [c|e]; [|by intros [= <- <- <-]].
  rewrite (Hret c eq_refl). clear Hret Hc.
  destruct Hpost as (Hk1 & Hr1 & Hp1 & Hg1).
  unfold_method.
  destruct (db h1 _) as [rows|e]; simpl.
  - destruct (name n); simpl; intros [= <- <- <-];
      repeat split; auto; apply grown_by_snoc; eauto.
  - intros [= <- <- <-]; repeat split; auto; apply grown_by_snoc; eauto.
Qed.

(** Calls keep the cache keyed and the configuration as it is. *)
Lemma run_call_keeps c σ h σ' h' :
  keyed σ → Calls.run_call db c σ h = (σ', h') →
  keyed σ' ∧ replicas σ' = replicas σ ∧ primary σ' = primary σ.
Proof.
  intros Hk. destruct c as [u|cfg|u d|u l]; simpl; unfold Calls.forget.
  - rewrite get_replica_for_user_eq. by intros [= <- <-].
  - destruct (get_connection db cfg σ h) as [[r σ1] h1] eqn:E.
    intros [= <- <-].
    by destruct (get_connection_spec _ _ _ _ _ _ Hk E) as [(? & ? & ? & _) _].
  - destruct (write_for_user db u d σ h) as [[r σ1] h1] eqn:E.
    intros [= <- <-].
    by destruct (write_for_user_spec _ _ _ _ _ _ _ Hk E) as (? & ? & ? & _).
  - destruct (read_for_user db u l σ h) as [[r σ1] h1] eqn:E.
    intros [= <- <-].
    by destruct (read_for_user_spec _ _ _ _ _ _ _ Hk E) as (? & ? & ? & _).
Qed.

Lemma run_calls_keeps cs σ h σ' h' :
  keyed σ → Calls.run_calls db cs σ h = (σ', h') →
  keyed σ' ∧ replicas σ' = replicas σ ∧ primary σ' = primary σ.
Proof.
  revert σ h. induction cs as [|c cs IH]; intros σ h Hk; simpl.
  - by intros [= <- <-].
  - destruct (Calls.run_call db c σ h) as [σ1 h1] eqn:E.
    destruct (run_call_keeps _ _ _ _ _ Hk E) as (Hk1 & Hr1 & Hp1).
    intros Hrun. destruct (IH _ _ Hk1 Hrun) as (Hk2 & Hr2 & Hp2).
    repeat split; [done | congruence | congruence].
Qed.
End Router.

(** ** Writes *)

Section Writes.
Import Py Pg Run.
Context (db : Pg.db).

Lemma write_data_1_trace now data (self : Pattern1.DatabaseClient) h :
  grown_by (λ a, action_conn a = Pattern1.primary_conn self) h
    (Pattern1.write_data db now data self h).2.
Proof.
  unfold Pattern1.write_data. unfold_method.
  destruct (db h _) as [[|[|v row] rows]|e]; simpl; auto with trace.
  destruct (db _ (Commit _)); simpl; auto with trace.
Qed.

Lemma write_data_2_trace data (self : Pattern2.SmartDatabaseClient) h :
  grown_by (λ a, action_conn a = Pattern2.primary_conn self) h
    (Pattern2.write_data db data self h).2.
Proof.
  unfold Pattern2.write_data, Pattern2.record_write_lsn. unfold_method.
  destruct (db h _) as [[|[|v row] rows]|e]; simpl; auto with trace.
  destruct (db _ (Commit _)); simpl; auto with trace.
  destruct (db _ (Execute _ Pattern2.current_lsn_sql _)) as [[|[|v' row'] rows']|e];
    simpl; auto 6 with trace.
Qed.

(** A client that could be built has its two connections on the two
    endpoints. *)
Lemma DatabaseClient_init_conns h (c : Pattern1.DatabaseClient) h' :
  Pattern1.DatabaseClient_init db h = (Return c, h') →
  Pattern1.primary_conn c = Pattern1.primary_endpoint
  ∧ Pattern1.replica_conn c = Pattern1.replica_endpoint.
Proof.
  unfold Pattern1.DatabaseClient_init.
  destruct (db h _); [|discriminate].
  destruct (db _ _); [|discriminate].
  by intros [= <- <-].
Qed.

Lemma SmartDatabaseClient_init_conns h (c : Pattern2.SmartDatabaseClient) h' :
  Pattern2.SmartDatabaseClient_init db h = (Return c, h') →
  Pattern2.primary_conn c = Pattern2.primary_endpoint
  ∧ Pattern2.replica_conn c = Pattern2.replica_endpoint.
Proof.
  unfold Pattern2.SmartDatabaseClient_init.
  destruct (db h _); [|discriminate].
  destruct (db _ _); [|discriminate].
  by intros [= <- <-].
Qed.

(** The endpoints the router is configured with are three different
    ones. *)
Lemma primary_is_no_replica :
  ∀ n, n ∈ Pattern3.replicas Pattern3.StickySessionRouter_init →
       Pattern3.conn_of (Pattern3.primary Pattern3.StickySessionRouter_init)
       ≠ Pattern3.conn_of n.
Proof.
  intros n Hn. simpl in Hn.
  apply elem_of_cons in Hn as [-> | Hn]; [discriminate|].
  apply list_elem_of_singleton in Hn as ->. discriminate.
Qed.

Lemma write_for_user_trace calls user_id data h0 :
  let start := Calls.run_calls db calls Pattern3.StickySessionRouter_init h0 in
  grown_by (λ a, action_conn a
                 = Pattern3.conn_of (Pattern3.primary Pattern3.StickySessionRouter_init)
                 ∧ ∀ n, n ∈ Pattern3.replicas Pattern3.StickySessionRouter_init →
                        action_conn a ≠ Pattern3.conn_of n)
    start.2 (Pattern3.write_for_user db user_id data start.1 start.2).2.
Proof.
  intros start.
  destruct start as [σ h] eqn:Hstart. subst start.
  destruct (run_calls_keeps db _ _ _ _ _ keyed_init Hstart) as (Hk & Hr & Hp).
  simpl.
  destruct (Pattern3.write_for_user db user_id data σ h) as [[r σ'] h'] eqn:Hw.
  destruct (write_for_user_spec db _ _ _ _ _ _ _ Hk Hw) as (_ & _ & _ & Hg).
  simpl. eapply grown_by_weaken; [|exact Hg].
  intros a Ha. rewrite Hp in Ha. split; [done|].
  intros n Hn. rewrite Ha. by apply primary_is_no_replica.
Qed.
End Writes.

(** C7. Every write goes to the primary and to nothing else.  In the
    time-based and the log-position clients, every action [write_data]
    performs (the INSERT, the commit, the query for the current
    position) is on [primary_conn], whatever the servers answer; the
    clients are built with a replica connection to another endpoint.
    In the sticky router, after any sequence of calls on a new router,
    every action of [write_for_user] (opening the connection, the
    INSERT, the commit) is on the connection to the primary endpoint,
    which is the endpoint of no replica, whatever the user and the
    data. *)
Theorem writes_touch_the_primary_only (db : Pg.db) :
  (∀ now data self h,
     grown_by (λ a, Pg.action_conn a = Pattern1.primary_conn self) h
       (Pattern1.write_data db now data self h).2)
  ∧ (∀ data self h,
     grown_by (λ a, Pg.action_conn a = Pattern2.primary_conn self) h
       (Pattern2.write_data db data self h).2)
  ∧ (∀ calls user_id data h0,
     let start := Calls.run_calls db calls Pattern3.StickySessionRouter_init h0 in
     grown_by (λ a, Pg.action_conn a
                    = Pattern3.conn_of (Pattern3.primary Pattern3.StickySessionRouter_init)
                    ∧ ∀ n, n ∈ Pattern3.replicas Pattern3.StickySessionRouter_init →
                           Pg.action_conn a ≠ Pattern3.conn_of n)
       start.2 (Pattern3.write_for_user db user_id data start.1 start.2).2)
  ∧ Pattern1.primary_endpoint ≠ Pattern1.replica_endpoint
  ∧ Pattern2.primary_endpoint ≠ Pattern2.replica_endpoint.
Proof.
  split; [apply write_data_1_trace|].
  split; [apply write_data_2_trace|].
  split; [apply write_for_user_trace|].
  split; discriminate.
Qed.

(** ** The hash of a user *)

Section Hash.
Import Py Pattern3.

Lemma hex_value_hex_digit (d : Z) : 0 ≤ d < 16 → hex_value (hex_digit d) = Some d.
Proof.
  intros Hd.
  assert (d = 0 ∨ d = 1 ∨ d = 2 ∨ d = 3 ∨ d = 4 ∨ d = 5 ∨ d = 6 ∨ d = 7
          ∨ d = 8 ∨ d = 9 ∨ d = 10 ∨ d = 11 ∨ d = 12 ∨ d = 13 ∨ d = 14 ∨ d = 15)
    as Hcases by lia.
  repeat (destruct Hcases as [-> | Hcases]; [reflexivity|]). by subst.
Qed.

Lemma int16_digits_hex (s : str) (acc : Z) :
  Forall (λ c, is_Some (hex_value c)) s → ∃ v, int16_digits acc s = Return v.
Proof.
  intros Hs. revert acc. induction Hs as [|c s [d Hd] _ IH]; intros acc; simpl.
  - by eexists.
  - rewrite Hd. apply IH.
Qed.

(** The bytes of a digest are bytes. *)
Lemma le_bytes_range (n : nat) (x : Z) : Forall (λ b, 0 ≤ b < 256) (MD5.le_bytes n x).
Proof.
  unfold MD5.le_bytes. apply Forall_fmap, Forall_forall. intros i _. simpl.
  change 255 with (Z.ones 8). rewrite Z.land_ones by lia.
  apply Z.mod_pos_bound. lia.
Qed.

Lemma digest_range (msg : list Z) : Forall (λ b, 0 ≤ b < 256) (MD5.digest msg).
Proof.
  unfold MD5.digest. cbv zeta.
  repeat (apply Forall_app; split); apply le_bytes_range.
Qed.

Lemma digest_length (msg : list Z) : length (MD5.digest msg) = 16%nat.
Proof. reflexivity. Qed.

Lemma hexdigest_hex (msg : list Z) :
  Forall (λ c, is_Some (hex_value c)) (MD5.hexdigest msg).
Proof.
  unfold MD5.hexdigest. apply Forall_bind.
  eapply Forall_impl; [apply digest_range|].
  intros b Hb. simpl in *.
  assert (0 ≤ b ≫ 4 < 16).
  { rewrite Z.shiftr_div_pow2 by lia. change (2 ^ 4) with 16.
    split; [apply Z.div_pos; lia | apply Z.div_lt_upper_bound; lia]. }
  assert (0 ≤ Z.land b 15 < 16).
  { change 15 with (Z.ones 4). rewrite Z.land_ones by lia.
    apply Z.mod_pos_bound. lia. }
  repeat constructor; rewrite hex_value_hex_digit; eauto.
Qed.

Lemma hexdigest_not_empty (msg : list Z) : MD5.hexdigest msg ≠ [].
Proof.
  unfold MD5.hexdigest.
  pose proof (digest_length msg) as Hlen.
  destruct (MD5.digest msg) as [|b bs]; [discriminate|]. done.
Qed.

(** [int(..., 16)] of a hexdigest never raises: the hash is defined
    whenever the user id can be encoded. *)
Lemma hash_value_encoded (user_id : str) (bytes : list Z) :
  encode user_id = Return bytes → ∃ v, hash_value user_id = Return v.
Proof.
  intros Henc. unfold hash_value. rewrite Henc. unfold int16.
  pose proof (hexdigest_not_empty bytes) as Hne.
  destruct (MD5.hexdigest bytes) as [|c s] eqn:E; [done|].
  rewrite <- E. apply int16_digits_hex, hexdigest_hex.
Qed.

Lemma encode_raises (user_id : str) (e : exn) :
  encode user_id = Raise e → e = UnicodeEncodeError.
Proof.
  induction user_id as [|c s IH]; simpl; [done|].
  destruct (encode_code_point c) as [bs|e'] eqn:Ec.
  - destruct (encode s); [done|]. intros [= <-]. by apply IH.
  - intros [= <-]. unfold encode_code_point in Ec.
    repeat case_match; by simplify_eq.
Qed.

Lemma hash_value_not_encoded (user_id : str) (e : exn) :
  encode user_id = Raise e → hash_value user_id = Raise UnicodeEncodeError.
Proof.
  intros Henc. unfold hash_value. rewrite Henc.
  by rewrite (encode_raises _ _ Henc).
Qed.

(** Over a replica list that is not empty, the index is in range. *)
Lemma select_replica_returns (rs : list node) (user_id : str) (bytes : list Z) :
  rs ≠ [] → encode user_id = Return bytes →
  ∃ n, n ∈ rs ∧ select_replica rs user_id = Return n.
Proof.
  intros Hrs Henc.
  destruct (hash_value_encoded _ _ Henc) as [v Hv].
  unfold select_replica. rewrite Hv.
  assert (0 < Z.of_nat (length rs)) as Hlen by (destruct rs; [done | simpl; lia]).
  destruct (Z.eqb_spec (Z.of_nat (length rs)) 0) as [H0|_]; [lia|].
  pose proof (Z.mod_pos_bound v _ Hlen) as Hmod.
  destruct (rs !! Z.to_nat (v `mod` Z.of_nat (length rs))) as [n|] eqn:E.
  - exists n. split; [|done]. eapply list_elem_of_lookup_2; eauto.
  - apply lookup_ge_None in E. lia.
Qed.

(** Over an empty one, the modulo raises, once the hash is computed. *)
Lemma select_replica_empty (user_id : str) :
  select_replica [] user_id
  = match encode user_id with
    | Return _ => Raise ZeroDivisionError
    | Raise _ => Raise UnicodeEncodeError
    end.
Proof.
  destruct (encode user_id) as [bytes|e] eqn:Henc.
  - destruct (hash_value_encoded _ _ Henc) as [v Hv].
    unfold select_replica. by rewrite Hv.
  - unfold select_replica. by rewrite (hash_value_not_encoded _ _ Henc).
Qed.
End Hash.

(** ** The configuration is never assigned *)

Section Configuration.
Import Py Pg Run Pattern3.
Context (db : Pg.db).

Lemma get_connection_replicas cfg σ h :
  replicas (get_connection db cfg σ h).1.2 = replicas σ.
Proof.
  unfold get_connection. unfold_method.
  destruct (connections σ !! connection_key cfg) as [c0|] eqn:E; simpl.
  - by rewrite E.
  - destruct (db h _); simpl; [|done]. by rewrite lookup_insert_eq.
Qed.

Lemma write_for_user_replicas user_id data σ h :
  replicas (write_for_user db user_id data σ h).1.2 = replicas σ.
Proof.
  unfold write_for_user. rewrite bind_eq. unfold get at 1. rewrite bind_eq.
  pose proof (get_connection_replicas (primary σ) σ h) as Hc.
  destruct (get_connection db (primary σ) σ h) as [[[c|e] σ1] h1]; simpl in *; [|done].
  unfold_method.
  destruct (db h1 _) as [[|[|v row] rows]|e]; simpl; try done.
  by destruct (db _ (Commit _)).
Qed.

Lemma read_for_user_replicas user_id limit σ h :
  replicas (read_for_user db user_id limit σ h).1.2 = replicas σ.
Proof.
  unfold read_for_user. rewrite bind_eq, get_replica_for_user_eq.
  destruct (select_replica (replicas σ) user_id) as [n|e]; [|done].
  rewrite bind_eq.
  pose proof (get_connection_replicas n σ h) as Hc.
  destruct (get_connection db n σ h) as [[[c|e] σ1] h1]; simpl in *; [|done].
  unfold_method.
  destruct (db h1 _) as [rows|e]; simpl; [|done].
  by destruct (name n).
Qed.

Lemma run_call_replicas c σ h :
  replicas (Calls.run_call db c σ h).1 = replicas σ.
Proof.
  destruct c as [u|cfg|u d|u l]; simpl; unfold Calls.forget.
  - reflexivity.
  - pose proof (get_connection_replicas cfg σ h).
    by destruct (get_connection db cfg σ h) as [[r σ1] h1].
  - pose proof (write_for_user_replicas u d σ h).
    by destruct (write_for_user db u d σ h) as [[r σ1] h1].
  - pose proof (read_for_user_replicas u l σ h).
    by destruct (read_for_user db u l σ h) as [[r σ1] h1].
Qed.

Lemma run_calls_replicas cs σ h :
  replicas (Calls.run_calls db cs σ h).1 = replicas σ.
Proof.
  revert σ h. induction cs as [|c cs IH]; intros σ h; simpl; [done|].
  pose proof (run_call_replicas c σ h) as Hc.
  destruct (Calls.run_call db c σ h) as [σ1 h1]. simpl in Hc.
  by rewrite IH.
Qed.
End Configuration.

(** C6. The replica of a user is sticky.  Whatever calls are made on
    the router in between (selections, connections, writes and reads,
    for this user or others, returning or raising), and whatever the
    servers answer, [get_replica_for_user] gives for a user id the
    outcome it gave before, which depends on the replica list and the
    user id alone, and it changes neither the router nor the trace; two
    routers with the same replica list agree on every user; and when
    the list is not empty and the user id can be encoded, that outcome
    is a node of the list. *)
Theorem get_replica_for_user_is_sticky (db : Pg.db) (calls : list Calls.call)
    (user_id : Py.str) (σ : Pattern3.StickySessionRouter) (h : list Pg.action) :
  let later := Calls.run_calls db calls σ h in
  Pattern3.get_replica_for_user user_id later.1 later.2
    = ((Pattern3.get_replica_for_user user_id σ h).1.1, later.1, later.2)
  ∧ (∀ σ2 h2, Pattern3.replicas σ2 = Pattern3.replicas σ →
       (Pattern3.get_replica_for_user user_id σ2 h2).1.1
       = (Pattern3.get_replica_for_user user_id σ h).1.1)
  ∧ (Pattern3.replicas σ ≠ [] →
     (∃ bytes, Py.encode user_id = Py.Return bytes) →
     ∃ n, n ∈ Pattern3.replicas σ
          ∧ (Pattern3.get_replica_for_user user_id σ h).1.1 = Py.Return n).
Proof.
  intros later. rewrite !get_replica_for_user_eq. simpl.
  split; [|split].
  - unfold later. by rewrite run_calls_replicas.
  - intros σ2 h2 Heq. by rewrite Heq.
  - intros Hne [bytes Henc]. by eapply select_replica_returns.
Qed.

(** Alice, on the router as configured, between a write and two reads:
    she is assigned replica1 each time. *)
Lemma get_replica_for_user_is_sticky_witness :
  ∃ n, n ∈ Pattern3.replicas Pattern3.StickySessionRouter_init
       ∧ (Pattern3.get_replica_for_user (Py.lit "alice")
            Pattern3.StickySessionRouter_init []).1.1 = Py.Return n.
Proof.
  apply (get_replica_for_user_is_sticky (Env.serve Env.lagging)
           [Calls.WriteForUser (Py.lit "alice") (Py.lit "Hello World");
            Calls.ReadForUser (Py.lit "alice") 5;
            Calls.ReadForUser (Py.lit "alice") 5]
           (Py.lit "alice") Pattern3.StickySessionRouter_init []).
  - discriminate.
  - eexists. vm_compute. reflexivity.
Defined.

Example alice_reads_from_replica1 :
  Pattern3.select_replica (Pattern3.replicas Pattern3.StickySessionRouter_init)
    (Py.lit "alice")
  = Py.Return {| Pattern3.host := Py.lit "localhost"; Pattern3.port := 5433;
                 Pattern3.name := Some (Py.lit "replica1") |}.
Proof. vm_compute. reflexivity. Qed.

(** ** An empty replica list *)

(** C5, as the code has it.  There is no guard on the replica list and
    no configuration error: over an empty list the user id is encoded
    and hashed first, and then the modulo by the length 0 raises
    [ZeroDivisionError] (a user id that cannot be encoded raises
    [UnicodeEncodeError] before that); nothing else is done and the
    router is left as it was.  With the list the router is built with,
    no selection raises [ZeroDivisionError]. *)
Theorem get_replica_for_user_over_no_replica (user_id : Py.str)
    (σ : Pattern3.StickySessionRouter) (h : list Pg.action) :
  (Pattern3.replicas σ = [] →
   Pattern3.get_replica_for_user user_id σ h
   = (match Py.encode user_id with
      | Py.Return _ => Py.Raise Py.ZeroDivisionError
      | Py.Raise _ => Py.Raise Py.UnicodeEncodeError
      end, σ, h))
  ∧ (Pattern3.get_replica_for_user user_id Pattern3.StickySessionRouter_init h).1.1
    ≠ Py.Raise Py.ZeroDivisionError.
Proof.
  split.
  - intros Hempty. rewrite get_replica_for_user_eq, Hempty.
    by rewrite select_replica_empty.
  - rewrite get_replica_for_user_eq.
    change ((?r, ?s, ?t).1.1) with r.
    assert (Pattern3.replicas Pattern3.StickySessionRouter_init ≠ []) as Hne
      by discriminate.
    revert Hne. generalize (Pattern3.replicas Pattern3.StickySessionRouter_init).
    intros rs Hne.
    destruct (Py.encode user_id) as [bytes|e] eqn:Henc.
    + destruct (select_replica_returns rs user_id bytes Hne Henc) as (n & _ & Hn).
      rewrite Hn. discriminate.
    + unfold Pattern3.select_replica.
      rewrite (hash_value_not_encoded _ _ Henc). discriminate.
Qed.

(** A router whose replica list has been emptied, asked for alice. *)
Lemma get_replica_for_user_over_no_replica_witness :
  let σ := {| Pattern3.replicas := [];
              Pattern3.primary := Pattern3.primary Pattern3.StickySessionRouter_init;
              Pattern3.connections := ∅ |} in
  Pattern3.get_replica_for_user (Py.lit "alice") σ []
  = (Py.Raise Py.ZeroDivisionError, σ, []).
Proof.
  exact (proj1 (get_replica_for_user_over_no_replica (Py.lit "alice")
                  {| Pattern3.replicas := [];
                     Pattern3.primary := Pattern3.primary Pattern3.StickySessionRouter_init;
                     Pattern3.connections := ∅ |} []) eq_refl).
Defined.

(** C5 as stated fails: over an empty replica list the selection for
    alice surfaces as the arithmetic fault [ZeroDivisionError], and the
    hashing is attempted before the list is looked at, since a user id
    that cannot be encoded fails in the encoding. *)
Lemma empty_replica_list_divides_by_zero :
  Pattern3.select_replica [] (Py.lit "alice") = Py.Raise Py.ZeroDivisionError
  ∧ Pattern3.select_replica [] [0xD800] = Py.Raise Py.UnicodeEncodeError
  ∧ (Pattern3.get_replica_for_user (Py.lit "alice")
       {| Pattern3.replicas := [];
          Pattern3.primary := Pattern3.primary Pattern3.StickySessionRouter_init;
          Pattern3.connections := ∅ |} []).1.1
    = Py.Raise Py.ZeroDivisionError.
Proof. vm_compute. done. Qed.

(** ** The filter of a user's rows *)

Section Filter.
Import Py Pg Pattern3.

Lemma like_percent_cons (p t : str) :
  like (37 :: p) t
  = like p t || match t with [] => false | _ :: t' => like (37 :: p) t' end.
Proof. by destruct t. Qed.

(** A final [%] matches whatever is left. *)
Lemma like_percent_all (t : str) : like [37] t = true.
Proof.
  induction t as [|x t IH]; [done|].
  rewrite like_percent_cons, IH. apply orb_true_r.
Qed.

(** A text matches itself as a pattern as long as it has no backslash:
    a [%] or a [_] in it matches, among others, itself. *)
Lemma like_same_prefix (u p t : str) :
  92 ∉ u → like p t = true → like (u ++ p) (u ++ t) = true.
Proof.
  intros Hu Hpt. induction u as [|c u IH]; [done|].
  apply not_elem_of_cons in Hu as [Hc Hu]. specialize (IH Hu).
  rewrite <- !app_comm_cons.
  destruct (Z.eqb_spec c 37) as [->|H37].
  - rewrite like_percent_cons. simpl (match _ with [] => false | _ :: t' => _ end).
    rewrite (like_percent_cons (u ++ p) (u ++ t)), IH.
    by rewrite orb_true_r.
  - destruct (Z.eqb_spec c 95) as [->|H95]; [exact IH|].
    simpl. destruct (Z.eqb_spec c 37); [done|].
    destruct (Z.eqb_spec c 95); [done|].
    destruct (Z.eqb_spec c 92); [congruence|].
    by rewrite Z.eqb_refl.
Qed.

(** What a user without a backslash in the id has written passes the
    filter of the reads of that user. *)
Lemma own_data_matches_own_pattern (user_id data : str) :
  92 ∉ user_id → like (user_pattern user_id) (user_data user_id data) = true.
Proof.
  intros Hu. unfold user_pattern, user_data.
  rewrite !(app_assoc (lit "User-")).
  apply like_same_prefix.
  - rewrite not_elem_of_app. split; [|done].
    vm_compute. intros H. repeat (apply elem_of_cons in H as [H|H]; [done|]).
    by apply not_elem_of_nil in H.
  - change (lit ":%") with [58; 37]. change (lit ": ") with [58; 32].
    simpl. apply like_percent_all.
Qed.
End Filter.

(** C8 at a failing input.  The user CORP\alice writes "Hello World":
    the row holds the text [User-CORP\alice: Hello World], and the read
    of the same user filters with the pattern [User-CORP\alice:%], in
    which the backslash makes the [a] after it a literal character; the
    pattern asks for [User-CORPalice:] and the row does not match it,
    whereas for alice the row matches. *)
Theorem backslash_user_misses_own_rows :
  Pattern3.user_data (Py.lit "CORP\alice") (Py.lit "Hello World")
    = Py.lit "User-CORP\alice: Hello World"
  ∧ Pattern3.user_pattern (Py.lit "CORP\alice") = Py.lit "User-CORP\alice:%"
  ∧ Pg.like (Pattern3.user_pattern (Py.lit "CORP\alice"))
      (Pattern3.user_data (Py.lit "CORP\alice") (Py.lit "Hello World")) = false
  ∧ Pg.like (Pattern3.user_pattern (Py.lit "CORP\alice"))
      (Py.lit "User-CORPalice: Hello World") = true
  ∧ Pg.like (Pattern3.user_pattern (Py.lit "alice"))
      (Pattern3.user_data (Py.lit "alice") (Py.lit "Hello World")) = true.
Proof. vm_compute. done. Qed.

(** ** The elapsed time of pattern 1 *)

Section Elapsed.
Import Pattern1.

(** The rounded quotient is between the integers around the quotient,
    and within half a unit of it. *)
Lemma round_half_even_spec (num den : Z) :
  0 < den →
  let m := round_half_even num den in
  (∀ N, N * den ≤ num → N ≤ m)
  ∧ (∀ N, num ≤ N * den → m ≤ N)
  ∧ - den ≤ 2 * m * den - 2 * num ≤ den.
Proof.
  intros Hden. unfold round_half_even.
  pose proof (Z.div_mod num den ltac:(lia)) as Hdm.
  pose proof (Z.mod_pos_bound num den Hden) as Hr.
  set (q := num / den) in *. set (r := num `mod` den) in *.
  assert (Hq : ∀ N, N * den ≤ num → N ≤ q) by (intros N HN; nia).
  assert (Hq' : ∀ N, num ≤ N * den → r = 0 ∨ q + 1 ≤ N) by (intros N HN; nia).
  destruct (Z.ltb_spec (2 * r) den) as [Hlt|Hge];
    [|destruct (Z.ltb_spec den (2 * r)) as [Hgt|Hle]; [|destruct (Z.even q)]];
    repeat split;
    try (intros N HN; pose proof (Hq N HN); lia);
    try (intros N HN; destruct (Hq' N HN); nia);
    nia.
Qed.

(** The exponent found from the two logarithms is not above that of
    the quotient: [b * 2^k <= n]. *)
Lemma exponent_not_above (n b : Z) :
  0 < n → 0 < b →
  let k0 := Z.log2 n - Z.log2 b in
  let k := if below_scaled n b k0 then k0 - 1 else k0 in
  below_scaled n b k = false.
Proof.
  intros Hn Hb k0 k. subst k.
  destruct (below_scaled n b k0) eqn:Hk0; [|exact Hk0].
  pose proof (Z.log2_spec n Hn) as [Hn1 _].
  pose proof (Z.log2_spec b Hb) as [_ Hb2].
  pose proof (Z.log2_nonneg n) as Hln. pose proof (Z.log2_nonneg b) as Hlb.
  unfold below_scaled. subst k0.
  destruct (Z.leb_spec 0 (Z.log2 n - Z.log2 b - 1)) as [Hpos|Hneg].
  - apply Z.ltb_ge.
    assert (2 ^ Z.log2 n = 2 ^ (Z.log2 n - Z.log2 b - 1) * 2 ^ Z.succ (Z.log2 b)) as Hsplit.
    { rewrite <- Z.pow_add_r by lia. f_equal. lia. }
    assert (0 < 2 ^ (Z.log2 n - Z.log2 b - 1)) by (apply Z.pow_pos_nonneg; lia).
    nia.
  - apply Z.ltb_ge.
    assert (2 ^ Z.log2 n * 2 ^ (- (Z.log2 n - Z.log2 b - 1)) = 2 ^ Z.succ (Z.log2 b)) as Hsplit.
    { rewrite <- Z.pow_add_r by lia. f_equal. lia. }
    assert (0 < 2 ^ (- (Z.log2 n - Z.log2 b - 1))) by (apply Z.pow_pos_nonneg; lia).
    nia.
Qed.

(** Below [b * 2^j] the exponent is below [j]. *)
Lemma exponent_below (n b k j : Z) :
  0 < b → 0 ≤ j → below_scaled n b k = false → n < b * 2 ^ j → k < j.
Proof.
  intros Hb Hj Hk Hn.
  destruct (Z.lt_ge_cases k j) as [|Hge]; [done|]. exfalso.
  unfold below_scaled in Hk.
  destruct (Z.leb_spec 0 k); [|lia].
  apply Z.ltb_ge in Hk.
  assert (2 ^ j ≤ 2 ^ k) by (apply Z.pow_le_mono_r; lia).
  nia.
Qed.

(** Comparing the rounded seconds with an integer threshold below 2^34
    is comparing the microseconds exactly: the rounding moves the
    quotient by less than the microsecond that separates it from the
    threshold. *)
Lemma total_seconds_lt_exact (delta threshold : Z) :
  - (2 ^ 52 * 1000000) < delta < 2 ^ 52 * 1000000 →
  - 2 ^ 34 < threshold < 2 ^ 34 →
  float_lt_int (total_seconds delta) threshold = true
  ↔ delta < threshold * 1000000.
Proof.
  intros Hdelta Hthr. unfold total_seconds, true_divide.
  destruct (Z.eqb_spec delta 0) as [->|Hnz].
  { unfold float_lt_int. simpl. rewrite Z.ltb_lt. lia. }
  set (n := Z.abs delta). assert (0 < n) as Hn by lia.
  pose proof (exponent_not_above n 1000000 Hn ltac:(lia)) as Hk. cbv zeta in Hk.
  set (k := if below_scaled n 1000000 (Z.log2 n - Z.log2 1000000)
            then Z.log2 n - Z.log2 1000000 - 1
            else Z.log2 n - Z.log2 1000000) in *.
  assert (k < 52) as Hk52
    by (apply (exponent_below n 1000000 k 52); [lia | lia | exact Hk | lia]).
  assert (n < 1000000 * 2 ^ 34 → 2 ^ 19 ≤ 2 ^ (- (k - 52))) as Hfine.
  { intros Hsmall.
    assert (k < 34)
      by (apply (exponent_below n 1000000 k 34); [lia | lia | exact Hk | exact Hsmall]).
    apply Z.pow_le_mono_r; lia. }
  unfold float_lt_int. cbn [expo mant].
  destruct (Z.leb_spec 0 (k - 52)) as [|_]; [lia|].
  assert (0 < 2 ^ (- (k - 52))) as HP by (apply Z.pow_pos_nonneg; lia).
  set (P := 2 ^ (- (k - 52))) in *.
  pose proof (round_half_even_spec (n * P) 1000000 ltac:(lia)) as (Hlo & Hhi & Hhalf).
  set (m := round_half_even (n * P) 1000000) in *.
  rewrite Z.ltb_lt.
  change (2 ^ 19) with 524288 in Hfine. change (2 ^ 34) with 17179869184 in *.
  destruct (Z.lt_trichotomy delta 0) as [Hneg|[?|Hpos]]; [|lia|].
  - replace (Z.sgn delta) with (-1) by lia.
    assert (n = - delta) as Hnd by lia.
    split.
    + intros Hlt. destruct (Z.lt_ge_cases delta (threshold * 1000000)) as [|Hge]; [done|].
      exfalso. assert (m ≤ - threshold * P) by (apply Hhi; nia). lia.
    + intros Hlt.
      assert (- threshold * P ≤ m) as Hle by (apply Hlo; nia).
      destruct (Z.eq_dec m (- threshold * P)) as [Heq|]; [|lia]. exfalso.
      destruct (Z.lt_ge_cases n (1000000 * 17179869184)) as [Hsmall|Hbig].
      * specialize (Hfine Hsmall). nia.
      * assert (17179869184 * P ≤ m) by (apply Hlo; nia). nia.
  - replace (Z.sgn delta) with 1 by lia.
    assert (n = delta) as Hnd by lia.
    split.
    + intros Hlt. destruct (Z.lt_ge_cases delta (threshold * 1000000)) as [|Hge]; [done|].
      exfalso. assert (threshold * P ≤ m) by (apply Hlo; nia). lia.
    + intros Hlt.
      assert (m ≤ threshold * P) as Hle by (apply Hhi; nia).
      destruct (Z.eq_dec m (threshold * P)) as [Heq|]; [|lia]. exfalso.
      assert (n < 1000000 * 17179869184) as Hsmall by nia.
      specialize (Hfine Hsmall). nia.
Qed.
End Elapsed.

(** C4. The time-based check answers [True] exactly when a write has
    been recorded and the elapsed time is strictly below the threshold.
    The elapsed time the code compares is [total_seconds()] of the
    difference, a float; for datetimes Python can hold and a threshold
    of less than 2^34 seconds the comparison is exact: the answer is
    [True] if and only if the difference in microseconds is strictly
    below the threshold in microseconds.  Without a recorded write the
    answer is [False]; the threshold of a new tracker is 5 seconds; and
    [read_data] sends its query to the primary when the answer is
    [True], to the replica otherwise. *)
Theorem should_read_from_primary_iff (now : Pattern1.datetime)
    (self : Pattern1.SessionTracker) :
  (Pattern1.should_read_from_primary now self = true
   ↔ ∃ t, Pattern1.last_write_time self = Some t
          ∧ Pattern1.float_lt_int (Pattern1.total_seconds (now - t))
              (Pattern1.write_threshold_seconds self) = true)
  ∧ (Pattern1.valid_datetime now →
     (∀ t, Pattern1.last_write_time self = Some t → Pattern1.valid_datetime t) →
     - 2 ^ 34 < Pattern1.write_threshold_seconds self < 2 ^ 34 →
     (Pattern1.should_read_from_primary now self = true
      ↔ ∃ t, Pattern1.last_write_time self = Some t
             ∧ now - t < Pattern1.write_threshold_seconds self * 1000000))
  ∧ (Pattern1.last_write_time self = None →
     Pattern1.should_read_from_primary now self = false)
  ∧ Pattern1.write_threshold_seconds Pattern1.SessionTracker_init = 5
  ∧ Pattern1.last_write_time Pattern1.SessionTracker_init = None
  ∧ (∀ db limit client h,
       Pattern1.session client = self →
       (Pattern1.read_data db now limit client h).2
       = h ++ [Pg.Execute
                 (if Pattern1.should_read_from_primary now self
                  then Pattern1.primary_conn client
                  else Pattern1.replica_conn client)
                 Pattern1.select_sql [Py.VInt limit]]).
Proof.
  unfold Pattern1.should_read_from_primary.
  split; [|split; [|split; [|split; [|split]]]].
  - destruct (Pattern1.last_write_time self) as [t|].
    + split; [intros H; by exists t | by intros (t' & [= <-] & H)].
    + split; [done | by intros (t' & [=] & _)].
  - intros Hnow Hlast Hthr.
    destruct (Pattern1.last_write_time self) as [t|].
    + specialize (Hlast t eq_refl).
      unfold Pattern1.valid_datetime in *. cbv zeta.
      rewrite total_seconds_lt_exact; [| change (2 ^ 52) with 4503599627370496; lia | done].
      split; [intros H; by exists t | by intros (t' & [= <-] & H)].
    + split; [done | by intros (t' & [=] & _)].
  - by intros ->.
  - reflexivity.
  - reflexivity.
  - intros db limit client h <-.
    unfold Pattern1.read_data, Pattern1.should_read_from_primary. unfold_method.
    by destruct (db h _).
Qed.

(** A write at 12:00:00 and reads 4.999999 s and 5 s later, with the
    threshold of 5 seconds. *)
Lemma should_read_from_primary_iff_witness :
  let wrote := 63000000000000000 in
  let self := Pattern1.record_write wrote Pattern1.SessionTracker_init in
  (Pattern1.should_read_from_primary (wrote + 4999999) self = true
   ↔ ∃ t, Pattern1.last_write_time self = Some t
          ∧ wrote + 4999999 - t < Pattern1.write_threshold_seconds self * 1000000).
Proof.
  intros wrote self.
  destruct (should_read_from_primary_iff (wrote + 4999999) self)
    as (_ & Hexact & _).
  apply Hexact.
  - unfold Pattern1.valid_datetime, wrote. lia.
  - intros t [= <-]. unfold Pattern1.valid_datetime, wrote. lia.
  - simpl. lia.
Defined.

(** Beyond 2^34 seconds the rounding of [total_seconds()] shows: one
    microsecond before a threshold of 2^34 + 1 seconds, the float is the
    threshold itself. *)
Example rounding_beyond_2_34 :
  Pattern1.should_read_from_primary (17179869185 * 1000000 - 1)
    {| Pattern1.last_write_time := Some 0;
       Pattern1.write_threshold_seconds := 17179869185 |} = false.
Proof. vm_compute. reflexivity. Qed.

Example primary_until_the_threshold :
  let self := Pattern1.record_write 63000000000000000 Pattern1.SessionTracker_init in
  Pattern1.should_read_from_primary (63000000000000000 + 4999999) self = true
  ∧ Pattern1.should_read_from_primary (63000000000000000 + 5000000) self = false
  ∧ Pattern1.should_read_from_primary (63000000000000000 + 6000000) self = false
  ∧ Pattern1.should_read_from_primary 63000000000000000 Pattern1.SessionTracker_init = false.
Proof. vm_compute. done. Qed.

(** * More of the code *)

(** ** Writes and the reads that follow them, pattern 1 *)

Section Pattern1_more.
Import Py Pg Run Pattern1.
Context (db : Pg.db).

(** A write that returns has executed the INSERT, committed, and
    recorded the time. *)
Lemma write_data_1_returns now data (self : DatabaseClient) h r self' h' :
  write_data db now data self h = (Return r, self', h') →
  self' = set_session (record_write now (session self)) self
  ∧ h' = h ++ [Execute (primary_conn self) insert_sql [VStr data];
               Commit (primary_conn self)].
Proof.
  unfold write_data. unfold_method.
  destruct (db h _) as [[|[|v row] rows]|e]; simpl; try discriminate.
  destruct (db _ (Commit _)); simpl; [|discriminate].
  intros [= <- <- <-]. by rewrite <- app_assoc.
Qed.

(** Write, then read: after a write that returned at [wrote], a read
    at [now] is sent to the primary when less than the threshold has
    elapsed, and to the replica from the threshold on, whatever
    happened on the connections in between. *)
Theorem read_after_write_routes_by_elapsed (wrote now : datetime) (data : str)
    (limit : Z) (self self' : DatabaseClient) (h h1 h2 : list action) (r : val) :
  write_data db wrote data self h = (Return r, self', h1) →
  valid_datetime wrote → valid_datetime now →
  - 2 ^ 34 < write_threshold_seconds (session self) < 2 ^ 34 →
  (read_data db now limit self' h2).2
  = h2 ++ [Execute
             (if now - wrote <? write_threshold_seconds (session self) * 1000000
              then primary_conn self else replica_conn self)
             select_sql [VInt limit]].
Proof.
  intros Hw Hwrote Hnow Hthr.
  apply write_data_1_returns in Hw as [-> _].
  unfold read_data, should_read_from_primary. unfold_method.
  assert (float_lt_int (total_seconds (now - wrote))
            (write_threshold_seconds (session self))
          = (now - wrote <? write_threshold_seconds (session self) * 1000000)) as ->.
  { unfold valid_datetime in *.
    apply eq_true_iff_eq. rewrite Z.ltb_lt.
    apply total_seconds_lt_exact; [change (2 ^ 52) with 4503599627370496; lia | done]. }
  by destruct (db h2 _).
Qed.

(** A write that raises has recorded nothing: the client is as it was,
    and the reads that follow are routed as before the attempt. *)
Theorem failed_write_records_no_time (now : datetime) (data : str)
    (self self' : DatabaseClient) (h h' : list action) (e : exn) :
  write_data db now data self h = (Raise e, self', h') → self' = self.
Proof.
  unfold write_data. unfold_method.
  destruct (db h _) as [[|[|v row] rows]|e0]; simpl;
    try (by intros [= _ <- _]).
  destruct (db _ (Commit _)); simpl; [discriminate | by intros [= _ <- _]].
Qed.
End Pattern1_more.

(** The write of the demonstration at noon, and a read six seconds
    later: it goes to the replica. *)
Lemma read_after_write_routes_by_elapsed_witness :
  let client := {| Pattern1.primary_conn := Pattern1.primary_endpoint;
                   Pattern1.replica_conn := Pattern1.replica_endpoint;
                   Pattern1.session := Pattern1.SessionTracker_init |} in
  let db := Env.serve Env.lagging in
  (Pattern1.read_data db (63000000000000000 + 6000000) 3
     (Pattern1.write_data db 63000000000000000 (Py.lit "Pattern1-After-Wait") client []).1.2
     []).2
  = [Pg.Execute Pattern1.replica_endpoint Pattern1.select_sql [Py.VInt 3]].
Proof.
  intros client db.
  eapply (read_after_write_routes_by_elapsed db 63000000000000000
            (63000000000000000 + 6000000) (Py.lit "Pattern1-After-Wait") 3
            client _ [] _ [] (Py.VInt 1)).
  - vm_compute. reflexivity.
  - unfold Pattern1.valid_datetime. lia.
  - unfold Pattern1.valid_datetime. lia.
  - simpl. lia.
Defined.

(** The insertion is refused: the tracker still has no write. *)
Lemma failed_write_records_no_time_witness :
  let client := {| Pattern1.primary_conn := Pattern1.primary_endpoint;
                   Pattern1.replica_conn := Pattern1.replica_endpoint;
                   Pattern1.session := Pattern1.SessionTracker_init |} in
  (Pattern1.write_data Env2.insert_refused 63000000000000000
     (Py.lit "Pattern1-Critical-Data") client []).1.2 = client.
Proof.
  intros client.
  eapply (failed_write_records_no_time Env2.insert_refused 63000000000000000
            (Py.lit "Pattern1-Critical-Data") client _ [] _
            (Py.DatabaseError "value too long")).
  vm_compute. reflexivity.
Defined.

(** ** Writes and the reads that follow them, pattern 2 *)

Section Pattern2_more.
Import Py Pg Run Pattern2.
Context (db : Pg.db).

(** A write that returns has executed the INSERT, committed, asked the
    primary for its position, all on the primary connection, and
    recorded the answer; the id it returns is the one the INSERT
    returned. *)
Theorem write_data_records_the_position (data : str)
    (self self' : SmartDatabaseClient) (h h' : list action) (r : val) :
  write_data db data self h = (Return r, self', h') →
  let insert := Execute (primary_conn self) insert_sql [VStr data] in
  let commit := Commit (primary_conn self) in
  let ask := Execute (primary_conn self) current_lsn_sql [] in
  h' = h ++ [insert; commit; ask]
  ∧ (∃ rest rows, db h insert = Return ((r :: rest) :: rows))
  ∧ (∃ rest rows, db (h ++ [insert; commit]) ask
                  = Return ((last_write_lsn (lsn_tracker self') :: rest) :: rows))
  ∧ primary_conn self' = primary_conn self
  ∧ replica_conn self' = replica_conn self.
Proof.
  unfold write_data, record_write_lsn. unfold_method.
  destruct (db h _) as [[|[|v row] rows]|e] eqn:Hins; simpl; try discriminate.
  destruct (db _ (Commit _)); simpl; [|discriminate].
  rewrite <- !app_assoc. simpl.
  destruct (db _ (Execute _ current_lsn_sql _)) as [[|[|lsn row'] rows']|e] eqn:Hask;
    simpl; try discriminate.
  intros [= <- <- <-]. simpl.
  repeat split; eauto.
Qed.

(** The row is committed and then the primary fails to report its
    position: the write raises, and the tracker keeps the position of
    the write before (or none), so that the reads that follow are
    checked against a position older than the row just committed. *)
Theorem committed_write_can_go_untracked (data : str)
    (self : SmartDatabaseClient) (h : list action)
    (id : val) (rest : list val) (rows committed : list row) (e : exn) :
  let insert := Execute (primary_conn self) insert_sql [VStr data] in
  let commit := Commit (primary_conn self) in
  let ask := Execute (primary_conn self) current_lsn_sql [] in
  db h insert = Return ((id :: rest) :: rows) →
  db (h ++ [insert]) commit = Return committed →
  db (h ++ [insert; commit]) ask = Raise e →
  write_data db data self h = (Raise e, self, h ++ [insert; commit; ask]).
Proof.
  intros insert commit ask Hins Hcommit Hask.
  unfold write_data, record_write_lsn. unfold_method.
  fold insert. rewrite Hins. simpl. fold commit. rewrite Hcommit. simpl.
  rewrite <- ?app_assoc; simpl. fold ask. rewrite Hask. simpl.
  rewrite <- ?app_assoc; simpl. by rewrite set_lsn_tracker_id.
Qed.

(** Before any write, a read that prefers the replica is sent to the
    replica at once: nothing is asked about positions. *)
Theorem read_before_any_write_uses_the_replica (limit : Z)
    (self : SmartDatabaseClient) (h : list action) :
  truthy (last_write_lsn (lsn_tracker self)) = false →
  let query := Execute (replica_conn self) select_sql [VInt limit] in
  read_data db limit true self h = (db h query, self, h ++ [query]).
Proof.
  intros Hnone query. unfold read_data. unfold_method.
  rewrite (replica_is_caught_up_no_write db _ _ _ Hnone). simpl.
  rewrite set_lsn_tracker_id. by destruct (db h _).
Qed.

(** After a write, a read that prefers the replica asks the replica
    for its position, then for the comparison, and is sent to the
    replica when the answer is true, and to the primary when it is
    anything else: false, or NULL. *)
Theorem read_follows_the_comparison (limit : Z)
    (self : SmartDatabaseClient) (h : list action)
    (pos v : val) (rest1 rest2 : list val) (more1 more2 : list row) :
  let ask := Execute (replica_conn self) replay_lsn_sql [] in
  let compare := Execute (replica_conn self) compare_sql
                   [last_write_lsn (lsn_tracker self); pos] in
  let query := Execute (if truthy v then replica_conn self else primary_conn self)
                 select_sql [VInt limit] in
  truthy (last_write_lsn (lsn_tracker self)) = true →
  db h ask = Return ((pos :: rest1) :: more1) →
  db (h ++ [ask]) compare = Return ((v :: rest2) :: more2) →
  read_data db limit true self h
  = (db (h ++ [ask; compare]) query, self, h ++ [ask; compare; query]).
Proof.
  intros ask compare query Ht Hask Hcmp.
  unfold read_data, replica_is_caught_up. unfold_method.
  rewrite Ht. simpl. fold ask. rewrite Hask. simpl.
  fold compare. rewrite Hcmp. simpl.
  rewrite set_lsn_tracker_id, <- ?app_assoc; simpl.
  fold query. by destruct (db _ query).
Qed.
End Pattern2_more.

(** The write of the demonstration on a cluster at 0/10000028. *)
Lemma write_data_records_the_position_witness :
  let client := {| Pattern2.primary_conn := Pattern2.primary_endpoint;
                   Pattern2.replica_conn := Pattern2.replica_endpoint;
                   Pattern2.lsn_tracker := Pattern2.LSNTracker_init |} in
  let db := Env.serve Env.lagging in
  let written := (Pattern2.write_data db (Py.lit "Pattern2-LSN-Test") client []).1.2 in
  let insert := Pg.Execute Pattern2.primary_endpoint Pattern2.insert_sql
                  [Py.VStr (Py.lit "Pattern2-LSN-Test")] in
  let commit := Pg.Commit Pattern2.primary_endpoint in
  let ask := Pg.Execute Pattern2.primary_endpoint Pattern2.current_lsn_sql [] in
  (Pattern2.write_data db (Py.lit "Pattern2-LSN-Test") client []).2
    = [] ++ [insert; commit; ask]
  ∧ (∃ rest rows, db [] insert = Py.Return ((Py.VInt 1 :: rest) :: rows))
  ∧ (∃ rest rows, db ([] ++ [insert; commit]) ask
                  = Py.Return ((Pattern2.last_write_lsn (Pattern2.lsn_tracker written)
                                :: rest) :: rows))
  ∧ Pattern2.primary_conn written = Pattern2.primary_endpoint
  ∧ Pattern2.replica_conn written = Pattern2.replica_endpoint.
Proof.
  intros client db written insert commit ask.
  eapply (write_data_records_the_position db (Py.lit "Pattern2-LSN-Test")
            client written [] _ (Py.VInt 1)).
  vm_compute. reflexivity.
Defined.

(** The same write when the primary cannot report its position. *)
Lemma committed_write_can_go_untracked_witness :
  let client := {| Pattern2.primary_conn := Pattern2.primary_endpoint;
                   Pattern2.replica_conn := Pattern2.replica_endpoint;
                   Pattern2.lsn_tracker := Pattern2.LSNTracker_init |} in
  Pattern2.write_data Env2.position_unavailable (Py.lit "Pattern2-LSN-Test") client []
  = (Py.Raise (Py.DatabaseError "server closed the connection unexpectedly"),
     client,
     [] ++ [Pg.Execute Pattern2.primary_endpoint Pattern2.insert_sql
              [Py.VStr (Py.lit "Pattern2-LSN-Test")];
            Pg.Commit Pattern2.primary_endpoint;
            Pg.Execute Pattern2.primary_endpoint Pattern2.current_lsn_sql []]).
Proof.
  intros client.
  apply (committed_write_can_go_untracked Env2.position_unavailable
           (Py.lit "Pattern2-LSN-Test") client [] (Py.VInt 1) [] [] []
           (Py.DatabaseError "server closed the connection unexpectedly"));
    reflexivity.
Defined.

(** A new client reads. *)
Lemma read_before_any_write_uses_the_replica_witness :
  let client := {| Pattern2.primary_conn := Pattern2.primary_endpoint;
                   Pattern2.replica_conn := Pattern2.replica_endpoint;
                   Pattern2.lsn_tracker := Pattern2.LSNTracker_init |} in
  let query := Pg.Execute Pattern2.replica_endpoint Pattern2.select_sql [Py.VInt 3] in
  Pattern2.read_data (Env.serve Env.lagging) 3 true client []
  = (Env.serve Env.lagging [] query, client, [] ++ [query]).
Proof.
  intros client query.
  apply (read_before_any_write_uses_the_replica (Env.serve Env.lagging) 3 client []).
  reflexivity.
Defined.

(** A client that wrote at 0/9FFFFD8 reads from a replica that is at
    0/10000028: the comparison answers false and the primary is read. *)
Lemma read_follows_the_comparison_witness :
  let client := {| Pattern2.primary_conn := Pattern2.primary_endpoint;
                   Pattern2.replica_conn := Pattern2.replica_endpoint;
                   Pattern2.lsn_tracker :=
                     {| Pattern2.last_write_lsn := Py.VStr (Py.lit "0/9FFFFD8") |} |} in
  let ask := Pg.Execute Pattern2.replica_endpoint Pattern2.replay_lsn_sql [] in
  let compare := Pg.Execute Pattern2.replica_endpoint Pattern2.compare_sql
                   [Py.VStr (Py.lit "0/9FFFFD8"); Py.VStr (Py.lit "0/10000028")] in
  let query := Pg.Execute Pattern2.primary_endpoint Pattern2.select_sql [Py.VInt 3] in
  Pattern2.read_data (Env.serve Env.caught_up) 3 true client []
  = (Env.serve Env.caught_up ([] ++ [ask; compare]) query, client,
     [] ++ [ask; compare; query]).
Proof.
  intros client ask compare query.
  apply (read_follows_the_comparison (Env.serve Env.caught_up) 3 client []
           (Py.VStr (Py.lit "0/10000028")) (Py.VBool false) [] [] [] []);
    reflexivity.
Defined.

(** ** The connections of the sticky router *)

Section Connections.
Import Py Pg Run Pattern3.
Context (db : Pg.db).

Lemma reuses_weaken σ σ' a : cache_grows σ σ' → reuses σ' a → reuses σ a.
Proof. intros Hg Hr c Hc. apply Hr, Hg, Hc. Qed.

Lemma cache_grows_refl σ : cache_grows σ σ.
Proof. by intros k. Qed.

Lemma cache_grows_trans σ1 σ2 σ3 :
  cache_grows σ1 σ2 → cache_grows σ2 σ3 → cache_grows σ1 σ3.
Proof. intros H1 H2 k Hk. by apply H2, H1. Qed.

Lemma get_connection_reuses cfg σ h r σ' h' :
  get_connection db cfg σ h = (r, σ', h') →
  cache_grows σ σ' ∧ grown_by (reuses σ) h h'.
Proof.
  unfold get_connection. unfold_method.
  destruct (connections σ !! connection_key cfg) as [c0|] eqn:E; simpl.
  - rewrite E. intros [= <- <- <-]. split; [apply cache_grows_refl | apply grown_by_refl].
  - assert (reuses σ (Connect (conn_of cfg))) as Hnew.
    { intros c Hc [= <-]. rewrite conn_key_conn_of, E in Hc. by destruct Hc. }
    destruct (db h (Connect (conn_of cfg))) as [rows|e]; simpl.
    + rewrite lookup_insert_eq. intros [= <- <- <-]. split.
      * intros k Hk. simpl. rewrite lookup_insert. by case_decide.
      * apply grown_by_snoc; [apply grown_by_refl | done].
    + intros [= <- <- <-]. split; [apply cache_grows_refl|].
      apply grown_by_snoc; [apply grown_by_refl | done].
Qed.

Lemma write_for_user_reuses user_id data σ h r σ' h' :
  write_for_user db user_id data σ h = (r, σ', h') →
  cache_grows σ σ' ∧ grown_by (reuses σ) h h'.
Proof.
  unfold write_for_user. rewrite bind_eq. unfold get at 1. rewrite bind_eq.
  destruct (get_connection db (primary σ) σ h) as [[rc σ1] h1] eqn:Hc.
  destruct (get_connection_reuses _ _ _ _ _ _ Hc) as [Hg Hr].
  destruct rc as [c|e]; [|by intros [= <- <- <-]].
  unfold_method.
  destruct (db h1 _) as [[|[|v row] rows]|e]; simpl;
    try (intros [= <- <- <-]; split; [done|];
         apply grown_by_snoc; [done | by intros ? ?]).
  destruct (db _ (Commit _)); simpl; intros [= <- <- <-]; (split; [done|]);
    repeat (apply grown_by_snoc; [|by intros ? ?]); done.
Qed.

Lemma read_for_user_reuses user_id limit σ h r σ' h' :
  read_for_user db user_id limit σ h = (r, σ', h') →
  cache_grows σ σ' ∧ grown_by (reuses σ) h h'.
Proof.
  unfold read_for_user. rewrite bind_eq, get_replica_for_user_eq.
  destruct (select_replica (replicas σ) user_id) as [n|e];
    [|intros [= <- <- <-]; split; [apply cache_grows_refl | apply grown_by_refl]].
  rewrite bind_eq.
  destruct (get_connection db n σ h) as [[rc σ1] h1] eqn:Hc.
  destruct (get_connection_reuses _ _ _ _ _ _ Hc) as [Hg Hr].
  destruct rc as [c|e]; [|by intros [= <- <- <-]].
  unfold_method.
  destruct (db h1 _) as [rows|e]; simpl.
  - destruct (name n); simpl; intros [= <- <- <-]; (split; [done|]);
      (apply grown_by_snoc; [done | by intros ? ?]).
  - intros [= <- <- <-]. split; [done|].
    apply grown_by_snoc; [done | by intros ? ?].
Qed.

Lemma run_calls_reuses cs σ h σ' h' :
  Calls.run_calls db cs σ h = (σ', h') →
  cache_grows σ σ' ∧ grown_by (reuses σ) h h'.
Proof.
  revert σ h. induction cs as [|c cs IH]; intros σ h; simpl.
  - intros [= <- <-]. split; [apply cache_grows_refl | apply grown_by_refl].
  - destruct (Calls.run_call db c σ h) as [σ1 h1] eqn:E.
    assert (cache_grows σ σ1 ∧ grown_by (reuses σ) h h1) as [Hg1 Hr1].
    { destruct c as [u|cfg|u d|u l]; simpl in E; unfold Calls.forget in E.
      - rewrite get_replica_for_user_eq in E. injection E as <- <-.
        split; [apply cache_grows_refl | apply grown_by_refl].
      - destruct (get_connection db cfg σ h) as [[r σ2] h2] eqn:E2.
        injection E as <- <-. by eapply get_connection_reuses.
      - destruct (write_for_user db u d σ h) as [[r σ2] h2] eqn:E2.
        injection E as <- <-. by eapply write_for_user_reuses.
      - destruct (read_for_user db u l σ h) as [[r σ2] h2] eqn:E2.
        injection E as <- <-. by eapply read_for_user_reuses. }
    intros Hrun. destruct (IH _ _ Hrun) as [Hg2 Hr2]. split.
    + by eapply cache_grows_trans.
    + eapply grown_by_trans; [exact Hr1|].
      eapply grown_by_weaken; [|exact Hr2]. intros a. by apply reuses_weaken.
Qed.

(** Once the router holds a connection to an endpoint, no sequence of
    calls opens another one to it: whatever is asked, for whatever
    user, the connection is reused. *)
Theorem cached_endpoint_is_never_reconnected (calls : list Calls.call)
    (σ : StickySessionRouter) (h : list action) (c : conn) :
  is_Some (connections σ !! conn_key c) →
  grown_by (λ a, a ≠ Connect c) h (Calls.run_calls db calls σ h).2.
Proof.
  intros Hc.
  destruct (Calls.run_calls db calls σ h) as [σ' h'] eqn:E.
  destruct (run_calls_reuses _ _ _ _ _ E) as [_ Hr]. simpl.
  eapply grown_by_weaken; [|exact Hr]. intros a Ha. by apply Ha.
Qed.

(** A connection that could be opened is returned again by the next
    calls for the same configuration, which ask nothing of the driver
    and leave the router as it is. *)
Theorem get_connection_is_cached (db' : Pg.db) (cfg : node)
    (σ σ1 : StickySessionRouter) (h h1 h2 : list action) (c : conn) :
  get_connection db cfg σ h = (Return c, σ1, h1) →
  get_connection db' cfg σ1 h2 = (Return c, σ1, h2).
Proof.
  unfold get_connection. unfold_method.
  destruct (connections σ !! connection_key cfg) as [c0|] eqn:E; simpl.
  - rewrite E. intros [= <- <- <-]. rewrite E. simpl. by rewrite E.
  - destruct (db h (Connect (conn_of cfg))) as [rows|e]; simpl; [|discriminate].
    rewrite lookup_insert_eq. intros [= <- <- <-]. simpl.
    rewrite lookup_insert_eq. simpl. by rewrite lookup_insert_eq.
Qed.

(** A connection that could not be opened is not cached: the router is
    as it was, and the next call for the configuration tries again. *)
Theorem failed_connection_is_not_cached (cfg : node)
    (σ σ' : StickySessionRouter) (h h' : list action) (e : exn) :
  get_connection db cfg σ h = (Raise e, σ', h') →
  σ' = σ
  ∧ h' = h ++ [Connect (conn_of cfg)]
  ∧ connections σ !! connection_key cfg = None.
Proof.
  unfold get_connection. unfold_method.
  destruct (connections σ !! connection_key cfg) as [c0|] eqn:E; simpl.
  - rewrite E. discriminate.
  - destruct (db h (Connect (conn_of cfg))) as [rows|e0]; simpl.
    + rewrite lookup_insert_eq. discriminate.
    + by intros [= <- <- <-].
Qed.

(** On a router that started empty, whatever was called since, the
    connection [get_connection] returns for a configuration is a
    connection to the host and port of that configuration: two
    configurations never share one, however their hosts and ports are
    written. *)
Theorem get_connection_is_to_its_endpoint (calls : list Calls.call) (cfg : node)
    (h0 : list action) (c : conn) :
  let start := Calls.run_calls db calls StickySessionRouter_init h0 in
  (get_connection db cfg start.1 start.2).1.1 = Return c → c = conn_of cfg.
Proof.
  intros start.
  destruct start as [σ h] eqn:Hstart. subst start.
  destruct (run_calls_keeps db _ _ _ _ _ keyed_init Hstart) as (Hk & _ & _).
  simpl.
  destruct (get_connection db cfg σ h) as [[r σ'] h'] eqn:Hc.
  destruct (get_connection_spec db _ _ _ _ _ _ Hk Hc) as [_ Hret].
  simpl. apply Hret.
Qed.

(** On such a router a read is served by the replica selected for the
    user and by it alone: every action of [read_for_user] is on the
    connection to that replica, none on the connection to the primary;
    and when no replica can be selected the read asks nothing. *)
Theorem reads_touch_the_selected_replica_only (calls : list Calls.call)
    (user_id : str) (limit : Z) (h0 : list action) :
  let start := Calls.run_calls db calls StickySessionRouter_init h0 in
  grown_by (λ a, ∃ n, select_replica (replicas StickySessionRouter_init) user_id
                      = Return n
                      ∧ action_conn a = conn_of n
                      ∧ action_conn a ≠ conn_of (primary StickySessionRouter_init))
    start.2 (read_for_user db user_id limit start.1 start.2).2.
Proof.
  intros start.
  destruct start as [σ h] eqn:Hstart. subst start.
  destruct (run_calls_keeps db _ _ _ _ _ keyed_init Hstart) as (Hk & Hr & Hp).
  simpl.
  destruct (read_for_user db user_id limit σ h) as [[r σ'] h'] eqn:Hread.
  destruct (read_for_user_spec db _ _ _ _ _ _ _ Hk Hread) as (_ & _ & _ & Hg).
  simpl. eapply grown_by_weaken; [|exact Hg].
  intros a (n & Hn & Ha). rewrite Hr in Hn. exists n. split; [done|]. split; [done|].
  rewrite Ha. intros Heq. symmetry in Heq. revert Heq.
  apply primary_is_no_replica. by eapply select_replica_elem.
Qed.
End Connections.

(** Alice writes and reads on a router that already has its connection
    to the primary. *)
Lemma cached_endpoint_is_never_reconnected_witness :
  let db := Env.serve Env.lagging in
  let cfg := Pattern3.primary Pattern3.StickySessionRouter_init in
  let σ := (Pattern3.get_connection db cfg Pattern3.StickySessionRouter_init []).1.2 in
  grown_by (λ a, a ≠ Pg.Connect (Pattern3.conn_of cfg)) []
    (Calls.run_calls db
       [Calls.WriteForUser (Py.lit "alice") (Py.lit "Hello World");
        Calls.ReadForUser (Py.lit "alice") 5] σ []).2.
Proof.
  intros db cfg σ.
  apply (cached_endpoint_is_never_reconnected db
           [Calls.WriteForUser (Py.lit "alice") (Py.lit "Hello World");
            Calls.ReadForUser (Py.lit "alice") 5] σ [] (Pattern3.conn_of cfg)).
  eexists. vm_compute. reflexivity.
Defined.

(** The connection to the primary, opened once, is returned again even
    when no server answers any more. *)
Lemma get_connection_is_cached_witness :
  let cfg := Pattern3.primary Pattern3.StickySessionRouter_init in
  let σ1 := (Pattern3.get_connection (Env.serve Env.lagging) cfg
               Pattern3.StickySessionRouter_init []).1.2 in
  Pattern3.get_connection Env2.nobody_home cfg σ1 []
  = (Py.Return (Pattern3.conn_of cfg), σ1, []).
Proof.
  intros cfg σ1.
  eapply (get_connection_is_cached (Env.serve Env.lagging) Env2.nobody_home cfg
            Pattern3.StickySessionRouter_init σ1 [] _ [] (Pattern3.conn_of cfg)).
  reflexivity.
Defined.

(** The primary refuses the connection. *)
Lemma failed_connection_is_not_cached_witness :
  let cfg := Pattern3.primary Pattern3.StickySessionRouter_init in
  (Pattern3.get_connection Env2.nobody_home cfg Pattern3.StickySessionRouter_init []).1.2
    = Pattern3.StickySessionRouter_init
  ∧ (Pattern3.get_connection Env2.nobody_home cfg Pattern3.StickySessionRouter_init []).2
    = [] ++ [Pg.Connect (Pattern3.conn_of cfg)]
  ∧ Pattern3.connections Pattern3.StickySessionRouter_init
      !! Pattern3.connection_key cfg = None.
Proof.
  intros cfg.
  eapply (failed_connection_is_not_cached Env2.nobody_home cfg
            Pattern3.StickySessionRouter_init _ [] _
            (Py.DatabaseError "connection refused")).
  reflexivity.
Defined.

(** The first connection of a new router. *)
Lemma get_connection_is_to_its_endpoint_witness :
  Pg.Build_conn (Py.lit "localhost") 5432
  = Pattern3.conn_of (Pattern3.primary Pattern3.StickySessionRouter_init).
Proof.
  apply (get_connection_is_to_its_endpoint (Env.serve Env.lagging) []
           (Pattern3.primary Pattern3.StickySessionRouter_init) []).
  reflexivity.
Defined.

(** ** Which users the sticky router can serve *)

Section Encodable.
Import Py Pattern3.

Lemma encode_code_point_returns (c : Z) :
  (∃ bs, encode_code_point c = Return bs)
  ↔ valid_code_point c && negb (is_surrogate c) = true.
Proof.
  unfold encode_code_point.
  destruct (valid_code_point c), (is_surrogate c); simpl.
  - split; [by intros [bs [=]] | done].
  - split; [done|]. intros _. repeat case_match; by eexists.
  - split; [by intros [bs [=]] | done].
  - split; [by intros [bs [=]] | done].
Qed.

Lemma encode_returns (s : str) :
  (∃ bs, encode s = Return bs)
  ↔ forallb (λ c, valid_code_point c && negb (is_surrogate c)) s = true.
Proof.
  induction s as [|c s IH]; simpl.
  - split; [done | by eexists].
  - rewrite andb_true_iff, <- IH, <- encode_code_point_returns.
    destruct (encode_code_point c) as [bs|e]; destruct (encode s) as [rest|e'].
    + split; [intros _; split; by eexists | by eexists].
    + split; [by intros [x [=]] | by intros [_ [x [=]]]].
    + split; [by intros [x [=]] | by intros [[x [=]] _]].
    + split; [by intros [x [=]] | by intros [[x [=]] _]].
Qed.

(** The router as configured serves exactly the user ids that UTF-8
    can encode: for a user id made of code points that are no
    surrogates, [get_replica_for_user] returns one of the two replicas;
    for any other user id (a lone surrogate is enough) it raises
    [UnicodeEncodeError], and so does every read of that user. *)
Theorem get_replica_for_user_serves_the_encodable (user_id : str)
    (h : list Pg.action) :
  let outcome := (get_replica_for_user user_id StickySessionRouter_init h).1.1 in
  if forallb (λ c, valid_code_point c && negb (is_surrogate c)) user_id
  then ∃ n, n ∈ replicas StickySessionRouter_init ∧ outcome = Return n
  else outcome = Raise UnicodeEncodeError
       ∧ ∀ db limit, (read_for_user db user_id limit StickySessionRouter_init h).1.1
                     = Raise UnicodeEncodeError.
Proof.
  intros outcome. subst outcome. rewrite get_replica_for_user_eq.
  change ((?r, ?s, ?t).1.1) with r.
  destruct (forallb _ user_id) eqn:Hall.
  - apply encode_returns in Hall as [bytes Henc].
    by apply (select_replica_returns _ _ bytes).
  - assert (∃ e, encode user_id = Raise e) as [e Henc].
    { destruct (encode user_id) as [bs|e] eqn:Henc; [|by eexists].
      assert (forallb (λ c, valid_code_point c && negb (is_surrogate c)) user_id = true)
        by (apply encode_returns; by eexists).
      congruence. }
    assert (select_replica (replicas StickySessionRouter_init) user_id
            = Raise UnicodeEncodeError) as Hsel.
    { unfold select_replica. by rewrite (hash_value_not_encoded _ _ Henc). }
    split; [exact Hsel|].
    intros db limit. unfold read_for_user.
    rewrite bind_eq, get_replica_for_user_eq, Hsel. reflexivity.
Qed.
End Encodable.

(** ** The filter, further *)

Section Filter_more.
Import Py Pg Pattern3.

Lemma like_plain_cons (c : Z) (p t : str) :
  plain c →
  like (c :: p) t = match t with [] => false | x :: t' => (x =? c) && like p t' end.
Proof.
  intros (H37 & H95 & H92). simpl.
  destruct (Z.eqb_spec c 37); [done|].
  destruct (Z.eqb_spec c 95); [done|].
  by destruct (Z.eqb_spec c 92).
Qed.

Lemma like_plain_prefix (u p t : str) :
  Forall plain u →
  like (u ++ p) t = true ↔ ∃ t', t = u ++ t' ∧ like p t' = true.
Proof.
  intros Hu. revert t. induction Hu as [|c u Hc Hu IH]; intros t.
  - split; [intros H; by exists t | by intros (t' & -> & H)].
  - rewrite <- app_comm_cons, like_plain_cons by done. destruct t as [|x t].
    + split; [done | by intros (t' & [=] & _)].
    + rewrite andb_true_iff, Z.eqb_eq, IH. split.
      * intros (-> & t' & -> & H). by exists t'.
      * intros (t' & [= -> ->] & H). split; [done | by exists t'].
Qed.

Lemma like_percent_skip (p v t : str) :
  like p t = true → like (37 :: p) (v ++ t) = true.
Proof.
  intros H. induction v as [|x v IH]; simpl app.
  - rewrite like_percent_cons, H. reflexivity.
  - rewrite like_percent_cons, IH. apply orb_true_r.
Qed.

(** For a user id without [%], [_] and backslash, the filter of
    [read_for_user] is a prefix test: a row passes exactly when its
    text starts with [User-], the user id and a colon. *)
Theorem filter_of_plain_user_is_prefix_test (user_id t : str) :
  Forall plain user_id →
  like (user_pattern user_id) t = true
  ↔ ∃ rest, t = lit "User-" ++ user_id ++ lit ":" ++ rest.
Proof.
  intros Hu. unfold user_pattern.
  change (lit ":%") with ([58] ++ [37]).
  rewrite !app_assoc. rewrite like_plain_prefix.
  - change (lit ":") with [58]. split.
    + intros (t' & -> & _). exists t'. by rewrite <- !app_assoc.
    + intros (rest & ->). exists rest. split; [by rewrite <- !app_assoc|].
      apply like_percent_all.
  - repeat (apply Forall_app; split); [|done|].
    + vm_compute. repeat constructor; done.
    + repeat constructor; done.
Qed.

(** A user id that ends in [%] reads the rows of every user whose id
    starts like it: the rows [write_for_user] stored for the user
    [u ++ v] pass the filter of the reads of the user [u%]. *)
Theorem wildcard_user_reads_other_users (u v data : str) :
  92 ∉ u →
  like (user_pattern (u ++ lit "%")) (user_data (u ++ v) data) = true.
Proof.
  intros Hu. unfold user_pattern, user_data.
  rewrite <- !app_assoc. rewrite !(app_assoc (lit "User-")).
  apply like_same_prefix.
  - rewrite not_elem_of_app. split; [|done].
    vm_compute. intros H. repeat (apply elem_of_cons in H as [H|H]; [done|]).
    by apply not_elem_of_nil in H.
  - change (lit "%" ++ lit ":%") with (37 :: [58; 37]).
    apply like_percent_skip.
    change (lit ": ") with [58; 32]. simpl. apply like_percent_all.
Qed.
End Filter_more.

(** Alice's rows pass, Bob's do not. *)
Lemma filter_of_plain_user_is_prefix_test_witness :
  Pg.like (Pattern3.user_pattern (Py.lit "alice"))
    (Pattern3.user_data (Py.lit "bob") (Py.lit "Hello World")) = true
  ↔ ∃ rest, Pattern3.user_data (Py.lit "bob") (Py.lit "Hello World")
            = Py.lit "User-" ++ Py.lit "alice" ++ Py.lit ":" ++ rest.
Proof.
  apply (filter_of_plain_user_is_prefix_test (Py.lit "alice")
           (Pattern3.user_data (Py.lit "bob") (Py.lit "Hello World"))).
  vm_compute. repeat constructor; done.
Defined.

(** The user a% reads the rows of alice. *)
Lemma wildcard_user_reads_other_users_witness :
  Pg.like (Pattern3.user_pattern (Py.lit "a" ++ Py.lit "%"))
    (Pattern3.user_data (Py.lit "a" ++ Py.lit "lice") (Py.lit "Hello World")) = true.
Proof.
  apply (wildcard_user_reads_other_users (Py.lit "a") (Py.lit "lice")
           (Py.lit "Hello World")).
  vm_compute. intros H. apply elem_of_cons in H as [H|H]; [done|].
  by apply not_elem_of_nil in H.
Defined.

(** ** The script that creates lag *)

Section Script.
Import Py Pg Run CreateLag.
Context (db : Pg.db).

(** Going through the rows asks nothing of the driver. *)
Lemma for_each_row_pure (results : list row) (h : list action) :
  ∃ r, for_each_row results tt h = (r, tt, h).
Proof.
  induction results as [|row rest [r IH]]; simpl; [by eexists|].
  rewrite bind_eq.
  destruct row as [|a [|b [|c [|d row]]]]; simpl; by eexists.
Qed.

(** [create_replication_lag] works on the primary only, one step after
    the other: connection, bulk insertion, commit, query of the
    replication status, close.  It stops at the first step that raises,
    so that the connection is closed only when every step before
    succeeded and every row of the status has three columns; when it
    returns, all five steps have been performed. *)
Theorem create_replication_lag_steps (h : list action) :
  let outcome := create_replication_lag db tt h in
  let c := primary_endpoint in
  let steps := [Connect c; Execute c bulk_insert_sql []; Commit c;
                Execute c replication_status_sql []; Close c] in
  ∃ new, outcome.2 = h ++ new
         ∧ new `prefix_of` steps
         ∧ Forall (λ a, action_conn a = c) new
         ∧ (outcome.1.1 = Return tt → new = steps)
         ∧ (new ≠ steps → ∃ e, outcome.1.1 = Raise e).
Proof.
  intros outcome c steps. subst outcome steps.
  unfold create_replication_lag. fold c. unfold_method.
  destruct (db h (Connect c)); simpl;
    [|exists [Connect c]; repeat split;
       [by eexists | repeat constructor | discriminate | by eexists]].
  destruct (db _ (Execute c bulk_insert_sql [])); simpl;
    [|exists [Connect c; Execute c bulk_insert_sql []];
      rewrite <- ?app_assoc; repeat split;
       [by eexists | repeat constructor | discriminate | by eexists]].
  destruct (db _ (Commit c)); simpl;
    [|exists [Connect c; Execute c bulk_insert_sql []; Commit c];
      rewrite <- ?app_assoc; repeat split;
       [by eexists | repeat constructor | discriminate | by eexists]].
  destruct (db _ (Execute c replication_status_sql [])) as [results|e]; simpl;
    [|exists [Connect c; Execute c bulk_insert_sql []; Commit c;
              Execute c replication_status_sql []];
      rewrite <- ?app_assoc; repeat split;
       [by eexists | repeat constructor | discriminate | by eexists]].
  destruct (for_each_row_pure results
              ((((h ++ [Connect c]) ++ [Execute c bulk_insert_sql []]) ++ [Commit c])
               ++ [Execute c replication_status_sql []])) as [r Hr].
  rewrite Hr. destruct r as [[]|e]; simpl;
    [|exists [Connect c; Execute c bulk_insert_sql []; Commit c;
              Execute c replication_status_sql []];
      rewrite <- ?app_assoc; repeat split;
       [by eexists | repeat constructor | discriminate | by eexists]].
  exists [Connect c; Execute c bulk_insert_sql []; Commit c;
          Execute c replication_status_sql []; Close c].
  destruct (db _ (Close c)); simpl; rewrite <- ?app_assoc;
    repeat split; try done; repeat constructor.
Qed.
End Script.

(** ** When the comparison of the texts is the comparison of the positions *)

Section Widths.
Import Py Pg.

Lemma hex_digit_upper_spec (d : Z) :
  0 ≤ d < 16 →
  is_digit_upper (hex_digit_upper d) ∧ digit_upper (hex_digit_upper d) = d.
Proof.
  intros Hd. unfold is_digit_upper, digit_upper, hex_digit_upper.
  destruct (Z.ltb_spec d 10).
  - destruct (Z.ltb_spec (48 + d) 58); lia.
  - destruct (Z.ltb_spec (55 + d) 58); lia.
Qed.

Lemma hex_number_snoc (s : str) (c : Z) :
  hex_number (s ++ [c]) = 16 * hex_number s + digit_upper c.
Proof.
  induction s as [|x s IH]; simpl.
  - lia.
  - rewrite IH, length_app. simpl.
    replace (Z.of_nat (length s + 1)) with (Z.succ (Z.of_nat (length s))) by lia.
    rewrite Z.pow_succ_r by lia. lia.
Qed.

Lemma hex_number_bound (s : str) :
  Forall is_digit_upper s → 0 ≤ hex_number s < 16 ^ Z.of_nat (length s).
Proof.
  induction 1 as [|c s Hc _ IH]; simpl hex_number; simpl length.
  - simpl. lia.
  - rewrite Nat2Z.inj_succ, Z.pow_succ_r by lia.
    assert (0 ≤ digit_upper c < 16)
      by (unfold is_digit_upper, digit_upper in *; destruct (Z.ltb_spec c 58); lia).
    nia.
Qed.

(** What [%X] prints is the number, in digits, and at least one. *)
Lemma hex_upper_spec (fuel : nat) (n : Z) (acc : str) :
  (1 ≤ fuel)%nat → 0 ≤ n < 16 ^ Z.of_nat fuel →
  ∃ ds, hex_upper fuel n acc = ds ++ acc
        ∧ Forall is_digit_upper ds ∧ hex_number ds = n ∧ ds ≠ [].
Proof.
  revert n acc. induction fuel as [|fuel IH]; intros n acc Hfuel Hn; [lia|].
  simpl hex_upper.
  assert (0 ≤ n `mod` 16 < 16) as Hmod by (apply Z.mod_pos_bound; lia).
  destruct (hex_digit_upper_spec _ Hmod) as [Hdigit Hvalue].
  pose proof (Z.div_mod n 16 ltac:(lia)) as Hdm.
  destruct (Z.eqb_spec (n / 16) 0) as [Hzero|Hnz].
  - exists [hex_digit_upper (n `mod` 16)]. repeat split; [by constructor | | done].
    simpl. rewrite Hvalue. lia.
  - assert (0 ≤ n / 16 < 16 ^ Z.of_nat fuel) as Hdiv.
    { rewrite Nat2Z.inj_succ, Z.pow_succ_r in Hn by lia.
      split; [apply Z.div_pos; lia | apply Z.div_lt_upper_bound; lia]. }
    assert (1 ≤ fuel)%nat as Hfuel'.
    { destruct fuel; [simpl in Hdiv; lia | lia]. }
    destruct (IH (n / 16) (hex_digit_upper (n `mod` 16) :: acc) Hfuel' Hdiv)
      as (ds & -> & Hds & Hnum & Hne).
    exists (ds ++ [hex_digit_upper (n `mod` 16)]). repeat split.
    + by rewrite <- app_assoc.
    + apply Forall_app. split; [done | by constructor].
    + rewrite hex_number_snoc, Hnum, Hvalue. lia.
    + by destruct ds.
Qed.

Lemma text_cmp_same_head (c : Z) (a b : str) :
  text_cmp (c :: a) (c :: b) = text_cmp a b.
Proof. simpl. by rewrite Z.compare_refl. Qed.

Lemma text_cmp_app (a b x y : str) :
  length a = length b →
  text_cmp (a ++ x) (b ++ y)
  = match text_cmp a b with Eq => text_cmp x y | c => c end.
Proof.
  revert b. induction a as [|c a IH]; intros [|d b] Hlen; try discriminate; [done|].
  simpl. destruct (c ?= d); [|done|done]. apply IH. by injection Hlen.
Qed.

(** Numbers printed with the same number of digits sort as numbers. *)
Lemma text_cmp_digits (a b : str) :
  Forall is_digit_upper a → Forall is_digit_upper b → length a = length b →
  text_cmp a b = (hex_number a ?= hex_number b).
Proof.
  intros Ha. revert b. induction Ha as [|x a Hx Ha IH]; intros b Hb Hlen.
  - destruct b; [done | discriminate].
  - destruct Hb as [|y b Hy Hb]; [discriminate|].
    injection Hlen as Hlen. specialize (IH b Hb Hlen).
    pose proof (hex_number_bound a Ha) as Hba.
    pose proof (hex_number_bound b Hb) as Hbb.
    simpl. rewrite <- Hlen in *.
    set (P := 16 ^ Z.of_nat (length a)) in *.
    assert (digit_upper x < digit_upper y ↔ x < y) as Hmono.
    { unfold is_digit_upper, digit_upper in *.
      destruct (Z.ltb_spec x 58), (Z.ltb_spec y 58); lia. }
    destruct (Z.compare_spec x y) as [->|Hlt|Hgt].
    + rewrite IH. symmetry. apply Z.add_compare_mono_l.
    + symmetry. apply Z.compare_lt_iff. apply Hmono in Hlt. nia.
    + symmetry. apply Z.compare_gt_iff.
      assert (digit_upper y < digit_upper x) as Hd.
      { unfold is_digit_upper, digit_upper in *.
        destruct (Z.ltb_spec x 58), (Z.ltb_spec y 58); lia. }
      nia.
Qed.

(** Two positions whose halves are printed with the same numbers of
    digits compare as texts the way they compare as positions. *)
Lemma text_le_pg_lsn_out (w r : Z) :
  0 ≤ w < 2 ^ 64 → 0 ≤ r < 2 ^ 64 →
  hex_width (w ≫ 32) = hex_width (r ≫ 32) →
  hex_width (Z.land w 0xFFFFFFFF) = hex_width (Z.land r 0xFFFFFFFF) →
  text_le (pg_lsn_out w) (pg_lsn_out r) = (w <=? r).
Proof.
  intros Hw Hr Hhi Hlo. unfold hex_width in *.
  assert (∀ n, 0 ≤ n < 2 ^ 64 →
               0 ≤ n ≫ 32 < 16 ^ Z.of_nat 8 ∧ 0 ≤ Z.land n 0xFFFFFFFF < 16 ^ Z.of_nat 8
               ∧ n = (n ≫ 32) * 4294967296 + Z.land n 0xFFFFFFFF) as Hsplit.
  { intros n Hn. rewrite Z.shiftr_div_pow2 by lia.
    change 0xFFFFFFFF with (Z.ones 32). rewrite Z.land_ones by lia.
    change (2 ^ 32) with 4294967296. change (16 ^ Z.of_nat 8) with 4294967296.
    change (2 ^ 64) with (4294967296 * 4294967296) in Hn.
    pose proof (Z.div_mod n 4294967296 ltac:(lia)).
    pose proof (Z.mod_pos_bound n 4294967296 ltac:(lia)).
    repeat split;
      first [lia | apply Z.div_pos; lia | apply Z.div_lt_upper_bound; lia]. }
  destruct (Hsplit w Hw) as (Hwhi & Hwlo & Hweq).
  destruct (Hsplit r Hr) as (Hrhi & Hrlo & Hreq).
  unfold text_le, Z.leb, pg_lsn_out.
  destruct (hex_upper_spec 8 (w ≫ 32) [] ltac:(lia) Hwhi) as (a1 & E1 & Ha1 & Hn1 & _).
  destruct (hex_upper_spec 8 (Z.land w 0xFFFFFFFF) [] ltac:(lia) Hwlo)
    as (a2 & E2 & Ha2 & Hn2 & _).
  destruct (hex_upper_spec 8 (r ≫ 32) [] ltac:(lia) Hrhi) as (b1 & F1 & Hb1 & Hm1 & _).
  destruct (hex_upper_spec 8 (Z.land r 0xFFFFFFFF) [] ltac:(lia) Hrlo)
    as (b2 & F2 & Hb2 & Hm2 & _).
  rewrite E1, E2, F1, F2 in *. rewrite !app_nil_r in *.
  rewrite text_cmp_app by done.
  rewrite (text_cmp_digits a1 b1) by done.
  change ([47] ++ a2) with (47 :: a2). change ([47] ++ b2) with (47 :: b2).
  rewrite text_cmp_same_head, (text_cmp_digits a2 b2) by done.
  rewrite Hn1, Hn2, Hm1, Hm2.
  set (whi := w ≫ 32) in *. set (wlo := Z.land w 0xFFFFFFFF) in *.
  set (rhi := r ≫ 32) in *. set (rlo := Z.land r 0xFFFFFFFF) in *.
  change (16 ^ Z.of_nat 8) with 4294967296 in *.
  assert ((w ?= r) = match whi ?= rhi with Eq => wlo ?= rlo | c => c end) as ->.
  { destruct (Z.compare_spec whi rhi) as [Heq|Hlt|Hgt].
    - rewrite Hweq, Hreq, Heq. apply Z.add_compare_mono_l.
    - apply Z.compare_lt_iff. lia.
    - apply Z.compare_gt_iff. lia. }
  reflexivity.
Qed.

(** On a cluster that answers as PostgreSQL does, the check of
    pattern 2 is right whenever the position of the write and the
    position of the replica are printed with the same numbers of
    digits: it answers whether the replica has reached the write. *)
Theorem check_is_right_for_equal_widths (w r : Z) (h : list action) :
  0 ≤ w < 2 ^ 64 → 0 ≤ r < 2 ^ 64 →
  hex_width (w ≫ 32) = hex_width (r ≫ 32) →
  hex_width (Z.land w 0xFFFFFFFF) = hex_width (Z.land r 0xFFFFFFFF) →
  (Pattern2.replica_is_caught_up
     (Env.serve {| Env.primary := Pattern2.primary_endpoint;
                   Env.current_lsn := w;
                   Env.replica := Env.Replaying r |})
     Pattern2.replica_endpoint
     {| Pattern2.last_write_lsn := VStr (pg_lsn_out w) |} h).1.1
  = Return (VBool (w <=? r)).
Proof.
  intros Hw Hr Hhi Hlo.
  rewrite replica_is_caught_up_compares_text.
  by rewrite text_le_pg_lsn_out.
Qed.
End Widths.

(** A write at 0/3000148 and a replica at 0/3000060: it lags, and the
    check says so. *)
Lemma check_is_right_for_equal_widths_witness :
  (Pattern2.replica_is_caught_up
     (Env.serve {| Env.primary := Pattern2.primary_endpoint;
                   Env.current_lsn := 0x3000148;
                   Env.replica := Env.Replaying 0x3000060 |})
     Pattern2.replica_endpoint
     {| Pattern2.last_write_lsn := Py.VStr (Pg.pg_lsn_out 0x3000148) |} []).1.1
  = Py.Return (Py.VBool (0x3000148 <=? 0x3000060)).
Proof.
  apply (check_is_right_for_equal_widths 0x3000148 0x3000060 []);
    [vm_compute; split; [discriminate | reflexivity]
    | vm_compute; split; [discriminate | reflexivity]
    | reflexivity | reflexivity].
Defined.

(** ** The statements of the sticky router *)

Section Statements.
Import Py Pg Run Pattern3.
Context (db : Pg.db).

Lemma get_connection_executes_nothing cfg σ h :
  grown_by (λ a, ∀ c q ps, a ≠ Execute c q ps) h (get_connection db cfg σ h).2.
Proof.
  unfold get_connection. unfold_method.
  destruct (connections σ !! connection_key cfg) as [c0|] eqn:E; simpl.
  - rewrite E. apply grown_by_refl.
  - destruct (db h (Connect (conn_of cfg))) as [rows|e]; simpl.
    + rewrite lookup_insert_eq. apply grown_by_snoc; [apply grown_by_refl | done].
    + apply grown_by_snoc; [apply grown_by_refl | done].
Qed.

(** The only statement a write executes is the INSERT of the text
    [User-<user_id>: <data>], and the only statement a read executes is
    the SELECT filtered by the pattern [User-<user_id>:%] with the
    limit it was given; so the row a user without a backslash in the id
    writes passes the filter of any read of that user. *)
Theorem sticky_router_statements (user_id data : str) (limit : Z)
    (σ σ2 : StickySessionRouter) (h h2 : list action) :
  grown_by (λ a, ∀ c q ps, a = Execute c q ps →
                 q = insert_sql ∧ ps = [VStr (user_data user_id data)])
    h (write_for_user db user_id data σ h).2
  ∧ grown_by (λ a, ∀ c q ps, a = Execute c q ps →
                   q = select_like_sql
                   ∧ ps = [VStr (user_pattern user_id); VInt limit])
      h2 (read_for_user db user_id limit σ2 h2).2
  ∧ (92 ∉ user_id → like (user_pattern user_id) (user_data user_id data) = true).
Proof.
  split; [|split; [|apply own_data_matches_own_pattern]].
  - unfold write_for_user. rewrite bind_eq. unfold get at 1. rewrite bind_eq.
    pose proof (get_connection_executes_nothing (primary σ) σ h) as Hc.
    destruct (get_connection db (primary σ) σ h) as [[[c|e] σ1] h1]; simpl in Hc;
      [|simpl; eapply grown_by_weaken; [|exact Hc]; intros a Ha c q ps ->; by destruct (Ha c q ps)].
    assert (grown_by (λ a, ∀ c q ps, a = Execute c q ps →
                           q = insert_sql ∧ ps = [VStr (user_data user_id data)])
              h h1) as Hg.
    { eapply grown_by_weaken; [|exact Hc]. intros a Ha c' q ps ->. by destruct (Ha c' q ps). }
    unfold_method.
    destruct (db h1 _) as [[|[|v row] rows]|e]; simpl;
      try (apply grown_by_snoc; [done | by intros ? ? ? [= <- <- <-]]).
    destruct (db _ (Commit _)); simpl;
      (apply grown_by_snoc; [|done]);
      (apply grown_by_snoc; [done | by intros ? ? ? [= <- <- <-]]).
  - unfold read_for_user. rewrite bind_eq, get_replica_for_user_eq.
    destruct (select_replica (replicas σ2) user_id) as [n|e]; [|apply grown_by_refl].
    rewrite bind_eq.
    pose proof (get_connection_executes_nothing n σ2 h2) as Hc.
    assert (grown_by (λ a, ∀ c q ps, a = Execute c q ps →
                           q = select_like_sql
                           ∧ ps = [VStr (user_pattern user_id); VInt limit])
              h2 (get_connection db n σ2 h2).2) as Hg.
    { eapply grown_by_weaken; [|exact Hc]. intros a Ha c' q ps ->. by destruct (Ha c' q ps). }
    destruct (get_connection db n σ2 h2) as [[[c|e] σ1] h1]; simpl in Hg; [|done].
    unfold_method.
    destruct (db h1 _) as [rows|e]; simpl.
    + destruct (name n); simpl;
        (apply grown_by_snoc; [done | by intros ? ? ? [= <- <- <-]]).
    + apply grown_by_snoc; [done | by intros ? ? ? [= <- <- <-]].
Qed.
End Statements.

(** Alice writes and reads. *)
Lemma sticky_router_statements_witness :
  Pg.like (Pattern3.user_pattern (Py.lit "alice"))
    (Pattern3.user_data (Py.lit "alice") (Py.lit "Hello World")) = true.
Proof.
  apply (sticky_router_statements (Env.serve Env.lagging) (Py.lit "alice")
           (Py.lit "Hello World") 5
           Pattern3.StickySessionRouter_init Pattern3.StickySessionRouter_init [] []).
  vm_compute. intros H. repeat (apply elem_of_cons in H as [H|H]; [done|]).
  by apply not_elem_of_nil in H.
Defined.
